(** * Qwen3-TTS local server (tts-server/server.py): model and properties

    A shallow embedding of the server's engine ([TTSEngine]) and of its
    Flask routes.  Python values that cross the HTTP boundary are kept
    dynamically typed ([pyval]); the engine, the configuration and the
    outside world (file system, log, calls into the speech model) are
    threaded through an exception monad. *)

From Stdlib Require Import ZArith QArith Lia Ascii.
From stdpp Require Import base option strings list gmap fin_maps pretty.

Local Open Scope string_scope.
Local Open Scope Z_scope.

(** ** hashlib.md5

    [_get_cache_key] hashes with [hashlib.md5(...).hexdigest()].  The
    digest is RFC 1321's, over bytes kept as integers in [0, 256) and
    32-bit words kept as integers with the wrap-around written out. *)
Module MD5.

Definition w32 (x : Z) : Z := x mod 4294967296.

Definition rotl (x c : Z) : Z :=
  w32 (Z.lor (Z.shiftl x c) (Z.shiftr x (32 - c))).

Definition bnot (x : Z) : Z := Z.lxor x 4294967295.

Definition shifts : list Z :=
  [7; 12; 17; 22; 7; 12; 17; 22; 7; 12; 17; 22; 7; 12; 17; 22;
   5; 9; 14; 20; 5; 9; 14; 20; 5; 9; 14; 20; 5; 9; 14; 20;
   4; 11; 16; 23; 4; 11; 16; 23; 4; 11; 16; 23; 4; 11; 16; 23;
   6; 10; 15; 21; 6; 10; 15; 21; 6; 10; 15; 21; 6; 10; 15; 21].

Definition sines : list Z :=
  [3614090360; 3905402710; 606105819; 3250441966;
   4118548399; 1200080426; 2821735955; 4249261313;
   1770035416; 2336552879; 4294925233; 2304563134;
   1804603682; 4254626195; 2792965006; 1236535329;
   4129170786; 3225465664; 643717713; 3921069994;
   3593408605; 38016083; 3634488961; 3889429448;
   568446438; 3275163606; 4107603335; 1163531501;
   2850285829; 4243563512; 1735328473; 2368359562;
   4294588738; 2272392833; 1839030562; 4259657740;
   2763975236; 1272893353; 4139469664; 3200236656;
   681279174; 3936430074; 3572445317; 76029189;
   3654602809; 3873151461; 530742520; 3299628645;
   4096336452; 1126891415; 2878612391; 4237533241;
   1700485571; 2399980690; 4293915773; 2240044497;
   1873313359; 4264355552; 2734768916; 1309151649;
   4149444226; 3174756917; 718787259; 3951481745].

Definition word_state : Type := Z * Z * Z * Z.

Definition initial_state : word_state :=
  (1732584193, 4023233417, 2562383102, 271733878).

Definition le_bytes4 (x : Z) : list Z :=
  [x mod 256; (x / 256) mod 256; (x / 65536) mod 256; (x / 16777216) mod 256].

Definition le_bytes8 (x : Z) : list Z :=
  le_bytes4 (w32 x) ++ le_bytes4 (w32 (x / 4294967296)).

Definition bytes_of_string (s : string) : list Z :=
  List.map (fun a => Z.of_N (Ascii.N_of_ascii a)) (String.list_ascii_of_string s).

(** Padding: a single 1 bit, zeros up to 56 mod 64, the bit length. *)
Definition pad (msg : list Z) : list Z :=
  let len := Z.of_nat (length msg) in
  msg ++ [128] ++ repeat 0 (Z.to_nat ((55 - len) mod 64)) ++ le_bytes8 (8 * len).

Fixpoint le_words (n : nat) (bs : list Z) : list Z :=
  match n with
  | O => []
  | S n' =>
    match bs with
    | b0 :: b1 :: b2 :: b3 :: rest =>
      (b0 + 256 * b1 + 65536 * b2 + 16777216 * b3) :: le_words n' rest
    | _ => []
    end
  end.

Definition nthZ (l : list Z) (i : Z) : Z := nth (Z.to_nat i) l 0.

Definition step (m : list Z) (st : word_state) (i : Z) : word_state :=
  let '(a, b, c, d) := st in
  let '(f, g) :=
    if i <? 16 then (Z.lor (Z.land b c) (Z.land (bnot b) d), i)
    else if i <? 32 then (Z.lor (Z.land d b) (Z.land (bnot d) c), (5 * i + 1) mod 16)
    else if i <? 48 then (Z.lxor (Z.lxor b c) d, (3 * i + 5) mod 16)
    else (Z.lxor c (Z.lor b (bnot d)), (7 * i) mod 16) in
  let f' := w32 (f + a + nthZ sines i + nthZ m g) in
  (d, w32 (b + rotl f' (nthZ shifts i)), b, c).

Definition rounds : list Z := List.map Z.of_nat (seq 0 64).

Definition compress (st : word_state) (block : list Z) : word_state :=
  let m := le_words 16 block in
  let '(a, b, c, d) := fold_left (step m) rounds st in
  let '(a0, b0, c0, d0) := st in
  (w32 (a0 + a), w32 (b0 + b), w32 (c0 + c), w32 (d0 + d)).

Fixpoint blocks (n : nat) (st : word_state) (bs : list Z) : word_state :=
  match n with
  | O => st
  | S n' => blocks n' (compress st (take 64 bs)) (drop 64 bs)
  end.

Definition digest_state (msg : list Z) : word_state :=
  let p := pad msg in
  blocks (length p / 64)%nat initial_state p.

Definition digest (msg : list Z) : list Z :=
  let '(a, b, c, d) := digest_state msg in
  le_bytes4 a ++ le_bytes4 b ++ le_bytes4 c ++ le_bytes4 d.

Definition hex_digit (d : Z) : ascii :=
  nth (Z.to_nat d)
    ["0"; "1"; "2"; "3"; "4"; "5"; "6"; "7";
     "8"; "9"; "a"; "b"; "c"; "d"; "e"; "f"]%char "0"%char.

Definition hex_byte (b : Z) : string :=
  String (hex_digit (b / 16)) (String (hex_digit (b mod 16)) EmptyString).

Fixpoint hex_of_bytes (bs : list Z) : string :=
  match bs with
  | [] => EmptyString
  | b :: rest => hex_byte b +:+ hex_of_bytes rest
  end.

(** [hashlib.md5(data).hexdigest()] *)
Definition hexdigest (data : string) : string :=
  hex_of_bytes (digest (bytes_of_string data)).

End MD5.

(** ** Python values

    JSON bodies, request fields and the rate argument are dynamically
    typed values.  A [str] is kept as its UTF-8 bytes, so that
    [str.encode()] is the identity (a string with a lone surrogate, on
    which [encode] raises, has no counterpart).  A finite [float] is the
    rational it denotes: the code only compares floats, and Python
    compares an [int] with a [float] exactly. *)

Inductive pyfloat : Type :=
  | FNaN
  | FInf (negative : bool)
  | FFinite (q : Q).

#[warnings="-register-all"]
Inductive pyval : Type :=
  | VNone
  | VBool (b : bool)
  | VInt (z : Z)
  | VFloat (f : pyfloat)
  | VStr (s : string)
  | VList (l : list pyval)
  | VDict (d : gmap string pyval).

Definition bytes : Type := string.

(** Exceptions: the class and [str(e)]. *)
Inductive exn_class : Type :=
  | ImportError
  | ModuleNotFoundError
  | AttributeError
  | TypeError
  | KeyError
  | FileNotFoundError
  | OSError
  | BadRequest
  | RuntimeError.

Record exn : Type := Exn { exn_type : exn_class; exn_str : string }.

Inductive Result (A : Type) : Type :=
  | Ok (a : A)
  | Raise (e : exn).
Arguments Ok {A} a.
Arguments Raise {A} e.

(** [isinstance(e, ImportError)] *)
Definition is_import_error (e : exn) : bool :=
  match exn_type e with
  | ImportError | ModuleNotFoundError => true
  | _ => false
  end.

Definition type_name (v : pyval) : string :=
  match v with
  | VNone => "NoneType"
  | VBool _ => "bool"
  | VInt _ => "int"
  | VFloat _ => "float"
  | VStr _ => "str"
  | VList _ => "list"
  | VDict _ => "dict"
  end.

(** [bool(v)] *)
Definition truthy (v : pyval) : bool :=
  match v with
  | VNone => false
  | VBool b => b
  | VInt z => negb (z =? 0)
  | VFloat FNaN => true
  | VFloat (FInf _) => true
  | VFloat (FFinite q) => negb (Qeq_bool q 0)
  | VStr s => negb (String.eqb s "")
  | VList l => match l with [] => false | _ :: _ => true end
  | VDict d => negb (bool_decide (d = ∅))
  end.

Definition is_str (key : string) (v : pyval) : bool :=
  match v with
  | VStr s => String.eqb s key
  | _ => false
  end.

Definition is_substring (needle hay : string) : bool :=
  match String.index 0 needle hay with
  | Some _ => true
  | None => false
  end.

(** [key in data], for a [str] key: membership in a dict's keys, among
    a list's elements, or as a substring of a string; any other value
    is not a container. *)
Definition py_contains (key : string) (data : pyval) : Result bool :=
  match data with
  | VDict d => Ok (bool_decide (is_Some (d !! key)))
  | VList l => Ok (existsb (is_str key) l)
  | VStr s => Ok (is_substring key s)
  | _ => Raise (Exn TypeError
                  ("argument of type '" +:+ type_name data +:+ "' is not iterable"))
  end.

(** [data[key]], for a [str] key. *)
Definition py_getitem (data : pyval) (key : string) : Result pyval :=
  match data with
  | VDict d =>
    match d !! key with
    | Some v => Ok v
    | None => Raise (Exn KeyError ("'" +:+ key +:+ "'"))
    end
  | VStr _ => Raise (Exn TypeError "string indices must be integers, not 'str'")
  | VList _ => Raise (Exn TypeError "list indices must be integers or slices, not str")
  | _ => Raise (Exn TypeError
                  ("'" +:+ type_name data +:+ "' object is not subscriptable"))
  end.

(** [data.get(key, default)] *)
Definition py_get (data : pyval) (key : string) (dflt : pyval) : Result pyval :=
  match data with
  | VDict d => Ok (default dflt (d !! key))
  | _ => Raise (Exn AttributeError
                  ("'" +:+ type_name data +:+ "' object has no attribute 'get'"))
  end.

#[global] Instance Result_ret : MRet Result := λ A a, Ok a.
#[global] Instance Result_bind : MBind Result := λ A B k r,
  match r with
  | Ok a => k a
  | Raise e => Raise e
  end.

Definition Qlt_bool (a b : Q) : bool := negb (Qle_bool b a).

Definition not_comparable (op : string) (v : pyval) : exn :=
  Exn TypeError ("'" +:+ op +:+ "' not supported between instances of '"
                 +:+ type_name v +:+ "' and 'float'").

(** [v < c] and [v > c] against a finite float constant [c]; [bool] is
    a subclass of [int]. *)
Definition py_lt_float (v : pyval) (c : Q) : Result bool :=
  match v with
  | VBool b => Ok (Qlt_bool (inject_Z (Z.b2z b)) c)
  | VInt z => Ok (Qlt_bool (inject_Z z) c)
  | VFloat FNaN => Ok false
  | VFloat (FInf negative) => Ok negative
  | VFloat (FFinite q) => Ok (Qlt_bool q c)
  | _ => Raise (not_comparable "<" v)
  end.

Definition py_gt_float (v : pyval) (c : Q) : Result bool :=
  match v with
  | VBool b => Ok (Qlt_bool c (inject_Z (Z.b2z b)))
  | VInt z => Ok (Qlt_bool c (inject_Z z))
  | VFloat FNaN => Ok false
  | VFloat (FInf negative) => Ok (negb negative)
  | VFloat (FFinite q) => Ok (Qlt_bool c q)
  | _ => Raise (not_comparable ">" v)
  end.

(** [min(c, v)]: the builtin keeps its first argument unless a later
    one compares less. *)
Definition py_min (c : Q) (v : pyval) : Result pyval :=
  lt ← py_lt_float v c;
  mret (if lt : bool then v else VFloat (FFinite c)).

(** [max(c, v)] *)
Definition py_max (c : Q) (v : pyval) : Result pyval :=
  gt ← py_gt_float v c;
  mret (if gt : bool then v else VFloat (FFinite c)).

(** [max(0.5, min(2.0, rate))] *)
Definition clamp_rate (rate : pyval) : Result pyval :=
  m ← py_min (2 # 1) rate;
  py_max (1 # 2) m.

(** ** Configuration, engine and world *)

Record ServerConfig : Type := {
  host : string;
  port : Z;
  model_name : string;
  cache_dir : string;
  reference_audio : string;
  reference_text : string;
  device : string
}.

(** [config = ServerConfig()] *)
Definition default_config : ServerConfig := {|
  host := "0.0.0.0";
  port := 8765;
  model_name := "Qwen/Qwen3-TTS-12Hz-0.6B-Base";
  cache_dir := "./cache";
  reference_audio := "./reference/gm-voice.wav";
  reference_text := "The shadows grow long as ancient evil stirs in the darkness.";
  device := "auto"
|}.

(** Objects of the [qwen_tts] library are opaque to the server: a
    loaded model, a voice-clone prompt and an array of samples are told
    apart by identity only. *)
Variant Model : Type := ModelObj (id : nat).
Variant VoicePrompt : Type := VoicePromptObj (id : nat).
Variant AudioArray : Type := AudioArrayObj (id : nat).

Record TTSEngine : Type := {
  model : option Model;
  voice_prompt : option VoicePrompt;
  audio_cache : gmap string bytes;
  _initialized : bool;
  _download_progress : Z
}.

(** [TTSEngine.__init__] *)
Definition new_engine : TTSEngine := {|
  model := None;
  voice_prompt := None;
  audio_cache := ∅;
  _initialized := false;
  _download_progress := 0
|}.

(** [is_initialized] and [has_voice_clone] properties *)
Definition is_initialized (e : TTSEngine) : bool := _initialized e.

Definition has_voice_clone (e : TTSEngine) : bool :=
  match voice_prompt e with
  | Some _ => true
  | None => false
  end.

Inductive level : Type := DEBUG | INFO | WARNING | ERROR.

(** One constructor per [logger] call of the source; a constructor
    keeps the values its f-string formats.  The last one is the record
    Flask's [app.logger] writes when an exception leaves a route:
    [Exception on <path> [<method>]], with the exception. *)
Inductive log_msg : Type :=
  | LogInitializing
  | LogLoadingModel (name : string)
  | LogUsingDevice (dev : string)
  | LogInitialized
  | LogImportFailed (e : exn)
  | LogPleaseInstall
  | LogInitFailed (e : exn)
  | LogReferenceNotFound (path : string)
  | LogCloningDisabled
  | LogCreatingPrompt (path : string)
  | LogPromptCreated
  | LogPromptFailed (e : exn)
  | LogCacheHit (text : pyval)
  | LogFileCacheHit (text : pyval)
  | LogSynthesizing (text : pyval)
  | LogSynthesisFailed (e : exn)
  | LogSynthesisError (e : exn)
  | LogUnhandled (path method : string) (e : exn).

(** Calls that leave the server: imports, the speech model, the file
    system's writes.  The last one is [generate_voice_clone] called
    with [voice_prompt=None]: it takes two requests that overlap, one
    of which clears the profile between the other's test of
    [self.voice_prompt] and its call. *)
Inductive ext_call : Type :=
  | CallImportQwenTTS
  | CallImportTorch
  | CallCudaIsAvailable
  | CallFromPretrained (name dev : string)
  | CallMkdir (path : string)
  | CallCreateVoiceClonePrompt (m : Model) (ref_audio ref_text : string)
  | CallGenerateVoiceClone (m : Model) (text : pyval) (vp : VoicePrompt) (speed : pyval)
  | CallGenerate (m : Model) (text : pyval) (speed : pyval)
  | CallOpenWrite (path : string) (data : bytes)
  | CallSave (path : string) (data : bytes)
  | CallGenerateVoiceCloneNone (m : Model) (text : pyval) (speed : pyval).

(** The world outside the process: files by path, the log, and the
    calls made so far (both newest first). *)
Record World : Type := {
  files : gmap string bytes;
  logs : list (level * log_msg);
  calls : list ext_call
}.

Record State : Type := {
  config : ServerConfig;
  tts_engine : TTSEngine;
  world : World
}.

(** The process as it starts: [config = ServerConfig()],
    [tts_engine = TTSEngine()]. *)
Definition boot (fs : gmap string bytes) : State :=
  {| config := default_config;
     tts_engine := new_engine;
     world := {| files := fs; logs := []; calls := [] |} |}.

Inductive write_outcome : Type :=
  | WriteOk
  | OpenFails (e : exn)
  | WriteFails (e : exn) (written : bytes).

(** What the server does not decide: the Python runtime, the
    [qwen_tts] and [torch] libraries and the operating system.  An
    outcome may differ from one call to the next, so each takes the
    number of calls made before it. *)
Record Runtime : Type := {
  py_format : pyval → string;
  import_qwen_tts : nat → Result unit;
  import_torch : nat → Result unit;
  cuda_is_available : nat → Result bool;
  from_pretrained : nat → string → string → Result Model;
  mkdir : nat → string → Result unit;
  create_voice_clone_prompt : nat → Model → string → string → Result VoicePrompt;
  generate_voice_clone :
    nat → Model → pyval → VoicePrompt → pyval → Result (AudioArray * Z);
  generate : nat → Model → pyval → pyval → Result (AudioArray * Z);
  numpy_int16_bytes : AudioArray → Result bytes;
  wave_write : bytes → Z → Result bytes;
  open_write : nat → string → bytes → write_outcome;
  file_save : nat → string → bytes → write_outcome
}.

(** ** The monad of server code

    A computation runs on the state and ends with a value or a raised
    exception; what it changed before raising stays changed. *)
Definition M (A : Type) : Type := State → Result A * State.

#[global] Instance M_ret : MRet M := λ A a s, (Ok a, s).
#[global] Instance M_bind : MBind M := λ A B k m s,
  match m s with
  | (Ok a, s') => k a s'
  | (Raise e, s') => (Raise e, s')
  end.

Definition raise {A : Type} (e : exn) : M A := λ s, (Raise e, s).

Definition lift {A : Type} (r : Result A) : M A := λ s, (r, s).

Definition get_config : M ServerConfig := λ s, (Ok (config s), s).

Definition get_engine : M TTSEngine := λ s, (Ok (tts_engine s), s).

Definition modify (f : State → State) : M unit := λ s, (Ok tt, f s).

(** [try: body except Exception as e: handler e] *)
Definition try_except {A : Type} (body : M A) (handler : exn → M A) : M A :=
  λ s,
  match body s with
  | (Ok a, s') => (Ok a, s')
  | (Raise e, s') => handler e s'
  end.

Definition with_engine (f : TTSEngine → TTSEngine) (s : State) : State :=
  {| config := config s; tts_engine := f (tts_engine s); world := world s |}.

Definition with_world (f : World → World) (s : State) : State :=
  {| config := config s; tts_engine := tts_engine s; world := f (world s) |}.

Definition set_model (m : option Model) : M unit :=
  modify (with_engine (λ e,
    {| model := m; voice_prompt := voice_prompt e; audio_cache := audio_cache e;
       _initialized := _initialized e; _download_progress := _download_progress e |})).

Definition set_voice_prompt (vp : option VoicePrompt) : M unit :=
  modify (with_engine (λ e,
    {| model := model e; voice_prompt := vp; audio_cache := audio_cache e;
       _initialized := _initialized e; _download_progress := _download_progress e |})).

Definition set_initialized (b : bool) : M unit :=
  modify (with_engine (λ e,
    {| model := model e; voice_prompt := voice_prompt e; audio_cache := audio_cache e;
       _initialized := b; _download_progress := _download_progress e |})).

(** [self.audio_cache[key] = data] *)
Definition cache_store (key : string) (data : bytes) : M unit :=
  modify (with_engine (λ e,
    {| model := model e; voice_prompt := voice_prompt e;
       audio_cache := <[key := data]> (audio_cache e);
       _initialized := _initialized e; _download_progress := _download_progress e |})).

(** [config.reference_text = text] *)
Definition set_reference_text (text : string) : M unit :=
  modify (λ s,
    {| config :=
         {| host := host (config s); port := port (config s);
            model_name := model_name (config s); cache_dir := cache_dir (config s);
            reference_audio := reference_audio (config s); reference_text := text;
            device := device (config s) |};
       tts_engine := tts_engine s; world := world s |}).

Definition add_log (r : level * log_msg) (w : World) : World :=
  {| files := files w; logs := r :: logs w; calls := calls w |}.

Definition add_call (c : ext_call) (w : World) : World :=
  {| files := files w; logs := logs w; calls := c :: calls w |}.

Definition put_file (path : string) (data : bytes) (w : World) : World :=
  {| files := <[path := data]> (files w); logs := logs w; calls := calls w |}.

(** [logging.basicConfig(level=logging.INFO)]: a DEBUG record is
    formatted by the caller and then dropped. *)
Definition level_enabled (l : level) : bool :=
  match l with
  | DEBUG => false
  | _ => true
  end.

Definition logger (l : level) (msg : log_msg) : M unit :=
  if level_enabled l then modify (with_world (add_log (l, msg))) else mret tt.

(** A call whose outcome the runtime decides. *)
Definition clock (s : State) : nat := length (calls (world s)).

Definition extern {A : Type} (c : ext_call) (outcome : nat → Result A) : M A :=
  λ s, (outcome (clock s), with_world (add_call c) s).

(** [Path(p).exists()] *)
Definition path_exists (path : string) : M bool :=
  λ s, (Ok (bool_decide (is_Some (files (world s) !! path))), s).

(** [open(path, "rb").read()] *)
Definition read_file (path : string) : M bytes :=
  λ s,
  match files (world s) !! path with
  | Some data => (Ok data, s)
  | None => (Raise (Exn FileNotFoundError ("No such file or directory: " +:+ path)), s)
  end.

(** Writing a whole file: the runtime says whether opening and
    writing succeed; a write that fails after the file was opened
    leaves what was written so far. *)
Definition write_with (c : ext_call) (outcome : nat → write_outcome)
    (path : string) (data : bytes) : M unit :=
  λ s,
  match outcome (clock s) with
  | WriteOk => (Ok tt, with_world (λ w, put_file path data (add_call c w)) s)
  | OpenFails e => (Raise e, with_world (add_call c) s)
  | WriteFails e written =>
    (Raise e, with_world (λ w, put_file path written (add_call c w)) s)
  end.

(** [text[:50]] is evaluated inside each log message of [synthesize]:
    it raises unless [text] is a [str] or a [list]. *)
Definition slice50 (text : pyval) : M unit :=
  match text with
  | VStr _ | VList _ => mret tt
  | VDict _ => raise (Exn TypeError "unhashable type: 'slice'")
  | _ => raise (Exn TypeError
                  ("'" +:+ type_name text +:+ "' object is not subscriptable"))
  end.

(** [Path(dir) / name] and [Path(p).parent], as text.  A path only
    names a file here, so pathlib's normalisation (of a leading "./",
    of doubled separators) is left out. *)
Definition path_join (dir name : string) : string := dir +:+ "/" +:+ name.

Fixpoint drop_last_component (p : string) : option string :=
  match p with
  | EmptyString => None
  | String c rest =>
    match drop_last_component rest with
    | Some r => Some (String c r)
    | None => if Ascii.eqb c "/" then Some EmptyString else None
    end
  end.

Definition path_parent (p : string) : string :=
  match drop_last_component p with
  | Some EmptyString => "/"
  | Some d => d
  | None => "."
  end.

(** ** TTSEngine *)
Module Engine.
Section Engine.

Variable rt : Runtime.

(** An f-string field: a [str] is copied, any other value goes through
    its [__format__]. *)
Definition fstring (v : pyval) : string :=
  match v with
  | VStr s => s
  | _ => py_format rt v
  end.

(** [_get_cache_key]: the text hashed is "text|rate|model_name". *)
Definition cache_key_content (cfg : ServerConfig) (text rate : pyval) : string :=
  fstring text +:+ "|" +:+ fstring rate +:+ "|" +:+ model_name cfg.

Definition _get_cache_key (cfg : ServerConfig) (text rate : pyval) : string :=
  MD5.hexdigest (cache_key_content cfg text rate).

(** [self.model.create_voice_clone_prompt(...)]: on [None] the attribute
    lookup raises. *)
Definition model_attr (attr : string) : M Model :=
  e ← get_engine;
  match model e with
  | Some m => mret m
  | None => raise (Exn AttributeError
                     ("'NoneType' object has no attribute '" +:+ attr +:+ "'"))
  end.

Definition _load_voice_prompt : M unit :=
  cfg ← get_config;
  let ref_path := reference_audio cfg in
  found ← path_exists ref_path;
  if negb found then
    logger WARNING (LogReferenceNotFound ref_path);;
    logger WARNING LogCloningDisabled
  else
    try_except
      (logger INFO (LogCreatingPrompt ref_path);;
       m ← model_attr "create_voice_clone_prompt";
       cfg ← get_config;
       vp ← extern (CallCreateVoiceClonePrompt m ref_path (reference_text cfg))
              (λ t, create_voice_clone_prompt rt t m ref_path (reference_text cfg));
       set_voice_prompt (Some vp);;
       logger INFO LogPromptCreated)
      (λ e,
       logger ERROR (LogPromptFailed e);;
       set_voice_prompt None).

Definition initialize : M unit :=
  e ← get_engine;
  if _initialized e then mret tt
  else
    logger INFO LogInitializing;;
    cfg ← get_config;
    logger INFO (LogLoadingModel (model_name cfg));;
    try_except
      (extern CallImportQwenTTS (import_qwen_tts rt);;
       cfg ← get_config;
       dev ← (if String.eqb (device cfg) "auto" then
                extern CallImportTorch (import_torch rt);;
                cuda ← extern CallCudaIsAvailable (cuda_is_available rt);
                mret (if cuda : bool then "cuda" else "cpu")
              else mret (device cfg));
       logger INFO (LogUsingDevice dev);;
       cfg ← get_config;
       m ← extern (CallFromPretrained (model_name cfg) dev)
             (λ t, from_pretrained rt t (model_name cfg) dev);
       set_model (Some m);;
       cfg ← get_config;
       extern (CallMkdir (cache_dir cfg)) (λ t, mkdir rt t (cache_dir cfg));;
       _load_voice_prompt;;
       set_initialized true;;
       logger INFO LogInitialized)
      (λ e,
       if is_import_error e then
         logger ERROR (LogImportFailed e);;
         logger ERROR LogPleaseInstall;;
         raise e
       else
         logger ERROR (LogInitFailed e);;
         raise e).

(** [_array_to_wav]: the scaling to 16-bit samples is numpy's, the
    container is the [wave] module's (one channel, two bytes a sample,
    the given frame rate). *)
Definition _array_to_wav (audio_array : AudioArray) (sample_rate : Z) : M bytes :=
  frames ← lift (numpy_int16_bytes rt audio_array);
  lift (wave_write rt frames sample_rate).

(** The first statement of [synthesize]:
    [if not self._initialized: self.initialize()]. *)
Definition lazy_initialize : M unit :=
  e ← get_engine;
  if negb (_initialized e) then initialize else mret tt.

Definition synthesize (text rate : pyval) : M bytes :=
  lazy_initialize;;
  cfg ← get_config;
  let cache_key := _get_cache_key cfg text rate in
  e ← get_engine;
  match audio_cache e !! cache_key with
  | Some audio_data =>
    slice50 text;;
    logger DEBUG (LogCacheHit text);;
    mret audio_data
  | None =>
    cfg ← get_config;
    let cache_path := path_join (cache_dir cfg) (cache_key +:+ ".wav") in
    found ← path_exists cache_path;
    if found : bool then
      slice50 text;;
      logger DEBUG (LogFileCacheHit text);;
      audio_data ← read_file cache_path;
      cache_store cache_key audio_data;;
      mret audio_data
    else
      slice50 text;;
      logger INFO (LogSynthesizing text);;
      try_except
        (e ← get_engine;
         out ← match voice_prompt e with
               | Some vp =>
                 m ← model_attr "generate_voice_clone";
                 extern (CallGenerateVoiceClone m text vp rate)
                   (λ t, generate_voice_clone rt t m text vp rate)
               | None =>
                 m ← model_attr "generate";
                 extern (CallGenerate m text rate) (λ t, generate rt t m text rate)
               end;
         audio_data ← _array_to_wav (fst out) (snd out);
         cache_store cache_key audio_data;;
         write_with (CallOpenWrite cache_path audio_data)
           (λ t, open_write rt t cache_path audio_data) cache_path audio_data;;
         mret audio_data)
        (λ e,
         logger ERROR (LogSynthesisFailed e);;
         raise e)
  end.

End Engine.
End Engine.

(** ** API routes *)

Inductive Body : Type :=
  | JsonBody (v : pyval)
  | DataBody (data : bytes) (mimetype : string) (headers : list (string * string))
  | ErrorPage.

Record Response : Type := { status : Z; body : Body }.

(** [jsonify(v), code] *)
Definition jsonify (v : pyval) (code : Z) : Response :=
  {| status := code; body := JsonBody v |}.

Definition error_body (msg : string) : pyval := VDict {[ "error" := VStr msg ]}.

(** The field of a JSON object sent back, if the body is one. *)
Definition json_field (r : Response) (key : string) : option pyval :=
  match body r with
  | JsonBody (VDict d) => d !! key
  | _ => None
  end.

Module Route.
Section Route.

Variable rt : Runtime.

Definition health_check : M Response :=
  e ← get_engine;
  cfg ← get_config;
  mret (jsonify (VDict (list_to_map [
    ("status", VStr "ok");
    ("initialized", VBool (is_initialized e));
    ("voice_clone_active",
       VBool (if is_initialized e then has_voice_clone e else false));
    ("model", VStr (model_name cfg))])) 200).

(** [get_json] is what [request.get_json()] returns or raises. *)
Definition synthesize (get_json : Result pyval) : M Response :=
  try_except
    (data ← lift get_json;
     missing ← lift (if negb (truthy data) then Ok true
                     else has_text ← py_contains "text" data;
                          mret (negb has_text));
     if missing : bool then
       mret (jsonify (error_body "Missing 'text' field") 400)
     else
       text ← lift (py_getitem data "text");
       rate ← lift (py_get data "rate" (VFloat (FFinite 1)));
       rate ← lift (clamp_rate rate);
       audio_data ← Engine.synthesize rt text rate;
       mret {| status := 200;
               body := DataBody audio_data "audio/wav"
                         [("Content-Disposition", "inline; filename=speech.wav");
                          ("Cache-Control", "public, max-age=3600")] |})
    (λ e,
     logger ERROR (LogSynthesisError e);;
     mret (jsonify (error_body (exn_str e)) 500)).

Definition list_voices : M Response :=
  e ← get_engine;
  let voice_status :=
    if is_initialized e && has_voice_clone e then "active" else "default" in
  mret (jsonify (VList [VDict (list_to_map [
    ("id", VStr "gm-narrator");
    ("name", VStr "Game Master (Lovecraft)");
    ("lang", VStr "en");
    ("description", VStr "Mysterious narrator voice for GM commentary");
    ("status", VStr voice_status)])]) 200).

(** [audio] is [request.files["audio"]] when the form has one, [text]
    is [request.form["text"]] when the form has one. *)
Definition upload_reference (audio : option bytes) (text : option string) : M Response :=
  match audio with
  | None => mret (jsonify (error_body "No audio file provided") 400)
  | Some audio_file =>
    cfg ← get_config;
    let text := default (reference_text cfg) text in
    let ref_dir := path_parent (reference_audio cfg) in
    extern (CallMkdir ref_dir) (λ t, mkdir rt t ref_dir);;
    let ref_path := reference_audio cfg in
    write_with (CallSave ref_path audio_file)
      (λ t, file_save rt t ref_path audio_file) ref_path audio_file;;
    set_reference_text text;;
    Engine._load_voice_prompt rt;;
    e ← get_engine;
    mret (jsonify (VDict (list_to_map [
      ("status", VStr "ok");
      ("message", VStr "Reference audio updated");
      ("voice_clone_active", VBool (has_voice_clone e))])) 200)
  end.

Definition get_status : M Response :=
  e ← get_engine;
  cfg ← get_config;
  found ← path_exists (reference_audio cfg);
  mret (jsonify (VDict (list_to_map [
    ("status", VStr "ok");
    ("initialized", VBool (is_initialized e));
    ("voice_clone_active",
       VBool (if is_initialized e then has_voice_clone e else false));
    ("model", VStr (model_name cfg));
    ("device", VStr (device cfg));
    ("cache_dir", VStr (cache_dir cfg));
    ("reference_audio_exists", VBool found)])) 200).

End Route.
End Route.

(** ** The running server

    Flask calls the route of each request; an exception that leaves a
    route is logged by Flask as an error and becomes its 500 page.
    Between two requests a file may be removed from outside the
    process.  [step] and [run] serve the requests one at a time, each
    to its end before the next one starts: they describe the runs in
    which no two requests overlap.  What overlapping requests do
    ([app.run] is called with [threaded=True]) is the subject of the
    threaded server further down. *)
Inductive Request : Type :=
  | GetHealth
  | PostSynthesize (get_json : Result pyval)
  | GetVoices
  | PostReference (audio : option bytes) (text : option string)
  | GetStatus.

Definition route (rt : Runtime) (r : Request) : M Response :=
  match r with
  | GetHealth => Route.health_check
  | PostSynthesize get_json => Route.synthesize rt get_json
  | GetVoices => Route.list_voices
  | PostReference audio text => Route.upload_reference rt audio text
  | GetStatus => Route.get_status
  end.

(** The rule and the method of [@app.route]. *)
Definition request_path (r : Request) : string :=
  match r with
  | GetHealth => "/health"
  | PostSynthesize _ => "/synthesize"
  | GetVoices => "/voices"
  | PostReference _ _ => "/reference"
  | GetStatus => "/status"
  end.

Definition request_method (r : Request) : string :=
  match r with
  | PostSynthesize _ | PostReference _ _ => "POST"
  | _ => "GET"
  end.

Definition handle (rt : Runtime) (r : Request) (s : State) : Response * State :=
  match route rt r s with
  | (Ok resp, s') => (resp, s')
  | (Raise e, s') =>
    ({| status := 500; body := ErrorPage |},
     with_world (add_log (ERROR, LogUnhandled (request_path r) (request_method r) e)) s')
  end.

Inductive Event : Type :=
  | Serve (r : Request)
  | RemoveFile (path : string).

Definition remove_file (path : string) (w : World) : World :=
  {| files := delete path (files w); logs := logs w; calls := calls w |}.

Definition step (rt : Runtime) (s : State) (ev : Event) : State :=
  match ev with
  | Serve r => snd (handle rt r s)
  | RemoveFile path => with_world (remove_file path) s
  end.

Definition run (rt : Runtime) (evs : list Event) (s : State) : State :=
  fold_left (step rt) evs s.

(** ** Notions the properties are stated with *)

(** [text[:50]] does not raise. *)
Definition sliceable (text : pyval) : bool :=
  match text with
  | VStr _ | VList _ => true
  | _ => false
  end.

(** The call into the speech model that a synthesis makes: cloned
    voice when a profile is active, default voice otherwise. *)
Definition speech_call (m : Model) (vp : option VoicePrompt) (text rate : pyval) : ext_call :=
  match vp with
  | Some p => CallGenerateVoiceClone m text p rate
  | None => CallGenerate m text rate
  end.

(** The path of the cache file of a key. *)
Definition cache_file (cfg : ServerConfig) (key : string) : string :=
  path_join (cache_dir cfg) (key +:+ ".wav").

(** Every run of [initialize]'s body starts with the import of
    [qwen_tts]: the imports recorded count the initializations
    attempted. *)
Fixpoint count_imports (cs : list ext_call) : nat :=
  match cs with
  | [] => O
  | CallImportQwenTTS :: rest => S (count_imports rest)
  | _ :: rest => count_imports rest
  end.

Definition init_attempts (s : State) : nat := count_imports (calls (world s)).

(** A voice profile is held only together with a model. *)
Definition profile_needs_model (s : State) : Prop :=
  is_Some (voice_prompt (tts_engine s)) → is_Some (model (tts_engine s)).

(** The loads of the model that were tried: the calls of
    [QwenTTS.from_pretrained]. *)
Fixpoint count_model_loads (cs : list ext_call) : nat :=
  match cs with
  | [] => O
  | CallFromPretrained _ _ :: rest => S (count_model_loads rest)
  | _ :: rest => count_model_loads rest
  end.

Definition load_attempts (s : State) : nat := count_model_loads (calls (world s)).

(** From [s] to [s'] a model appears only by a load. *)
Definition model_by_load (s s' : State) : Prop :=
  (load_attempts s ≤ load_attempts s')%nat ∧
  (is_Some (model (tts_engine s')) →
   is_Some (model (tts_engine s)) ∨ (load_attempts s < load_attempts s')%nat).

(** The number a rate denotes, when it is a finite one. *)
Definition number_value (v : pyval) : option Q :=
  match v with
  | VBool b => Some (inject_Z (Z.b2z b))
  | VInt z => Some (inject_Z z)
  | VFloat (FFinite q) => Some q
  | _ => None
  end.

Definition is_number (v : pyval) : bool :=
  match v with
  | VBool _ | VInt _ | VFloat _ => true
  | _ => false
  end.

Definition in_rate_range (v : pyval) : Prop :=
  ∃ q, number_value v = Some q ∧ (1 # 2 <= q)%Q ∧ (q <= 2 # 1)%Q.

(** What every step of the server keeps: the parts of the configuration
    the cache depends on, the memory cache's entries, an initialized
    engine, a loaded model, and the tie between profile and model. *)
Definition advances (s s' : State) : Prop :=
  model_name (config s') = model_name (config s) ∧
  cache_dir (config s') = cache_dir (config s) ∧
  reference_audio (config s') = reference_audio (config s) ∧
  (∀ k v, audio_cache (tts_engine s) !! k = Some v →
          audio_cache (tts_engine s') !! k = Some v) ∧
  (_initialized (tts_engine s) = true →
   _initialized (tts_engine s') = true ∧ init_attempts s' = init_attempts s) ∧
  (is_Some (model (tts_engine s)) → is_Some (model (tts_engine s'))) ∧
  (init_attempts s ≤ init_attempts s')%nat ∧
  (is_Some (model (tts_engine s')) →
   is_Some (model (tts_engine s)) ∨ (init_attempts s < init_attempts s')%nat) ∧
  (profile_needs_model s → profile_needs_model s').

(** No ["|"] in a field. *)
Fixpoint no_bar (s : string) : bool :=
  match s with
  | EmptyString => true
  | String c rest => negb (Ascii.eqb c "|") && no_bar rest
  end.


(** The clamp into [0.5, 2.0] on rationals. *)
Definition clamp_Q (q : Q) : Q :=
  if Qle_bool (2 # 1) q then 2 # 1
  else if Qle_bool q (1 # 2) then 1 # 2
  else q.


(** The spec's reading of cache-put atomicity: a synthesis that ends
    with the failed write of its cache file leaves no memory entry for
    the key. *)
Definition put_is_atomic (rt : Runtime) (text rate : pyval) (s : State) : Prop :=
  ∀ e s' path data earlier,
    Engine.synthesize rt text rate s = (Raise e, s') →
    calls (world s') = CallOpenWrite path data :: earlier →
    (length (calls (world s)) ≤ length earlier)%nat →
    audio_cache (tts_engine s') !! Engine._get_cache_key rt (config s) text rate = None.

(** The error of a write that failed, and what such a write left in the
    file. *)
Definition write_error (o : write_outcome) : option exn :=
  match o with
  | WriteOk => None
  | OpenFails e => Some e
  | WriteFails e _ => Some e
  end.

Definition written_before_failure (o : write_outcome) : option bytes :=
  match o with
  | WriteFails _ written => Some written
  | _ => None
  end.

(** The spec's reading of C10's upload: while the engine is not
    initialized, an upload ends with no active profile and reports
    none. *)
Definition uninitialized_upload_is_inactive (rt : Runtime) (s : State) : Prop :=
  _initialized (tts_engine s) = false →
  ∀ audio text,
    let r := handle rt (PostReference (Some audio) text) s in
    voice_prompt (tts_engine (snd r)) = None ∧
    (status (fst r) = 200 →
     json_field (fst r) "voice_clone_active" = Some (VBool false)).

(** The spec's reading of profile replacement: after the loader ran,
    the active profile is one built by this call or none. *)
Definition profile_replaced (rt : Runtime) (s : State) : Prop :=
  let s' := snd (Engine._load_voice_prompt rt s) in
  voice_prompt (tts_engine s') = None ∨
  ∃ m path text vp,
    calls (world s') = CallCreateVoiceClonePrompt m path text :: calls (world s) ∧
    create_voice_clone_prompt rt (clock s) m path text = Ok vp ∧
    voice_prompt (tts_engine s') = Some vp.

(** ** A sample runtime

    Everything works unless told otherwise; the speech model answers
    each call with a different array, the way a sampling model does. *)
Definition sample_format (v : pyval) : string :=
  match v with
  | VNone => "None"
  | VBool true => "True"
  | VBool false => "False"
  | VInt z => pretty z
  | VFloat (FFinite q) =>
    if Qeq_bool q (1 # 2) then "0.5"
    else if Qeq_bool q 1 then "1.0"
    else if Qeq_bool q 2 then "2.0"
    else "1.5"
  | VFloat FNaN => "nan"
  | VFloat (FInf true) => "-inf"
  | VFloat (FInf false) => "inf"
  | _ => "[]"
  end.

Definition sample_runtime (fail_import fail_mkdir fail_write : nat → bool) : Runtime := {|
  py_format := sample_format;
  import_qwen_tts := λ t,
    if fail_import t then Raise (Exn ModuleNotFoundError "No module named 'qwen_tts'")
    else Ok tt;
  import_torch := λ _, Ok tt;
  cuda_is_available := λ _, Ok false;
  from_pretrained := λ t _ _, Ok (ModelObj t);
  mkdir := λ t _,
    if fail_mkdir t then Raise (Exn OSError "Permission denied") else Ok tt;
  create_voice_clone_prompt := λ t _ _ _, Ok (VoicePromptObj t);
  generate_voice_clone := λ t _ _ _ _, Ok (AudioArrayObj t, 24000);
  generate := λ t _ _ _, Ok (AudioArrayObj t, 24000);
  numpy_int16_bytes := λ a, match a with AudioArrayObj n => Ok (pretty n) end;
  wave_write := λ frames _, Ok ("RIFF" +:+ frames);
  open_write := λ t _ _,
    if fail_write t then OpenFails (Exn OSError "No space left on device")
    else WriteOk;
  file_save := λ _ _ _, WriteOk
|}.

Definition never : nat → bool := λ _, false.
Definition always : nat → bool := λ _, true.
Definition only_at (n : nat) : nat → bool := λ t, Nat.eqb t n.

(** A runtime on which nothing fails. *)
Definition good_runtime : Runtime := sample_runtime never never never.

(** [{"text": text, "rate": rate}] *)
Definition synth_body (text : string) (rate : pyval) : pyval :=
  VDict (<["rate" := rate]> {[ "text" := VStr text ]}).

Definition rate_1 : pyval := VFloat (FFinite 1).

(** A runtime on which every write of a cache file fails. *)
Definition full_disk_runtime : Runtime := sample_runtime never never always.

Definition hello : pyval := VStr "Hello world".
Definition hello_key : string := "7f019809f1da51ecf5d234ef4c4b4525".
Definition hello_path : string := "./cache/7f019809f1da51ecf5d234ef4c4b4525.wav".

(** A runtime on which the first [mkdir] of the cache directory fails
    (the fifth call of a first initialization), and the events that
    lead to a profile whose reference file is gone: a first request,
    whose initialization loads the model and then fails; an upload of a
    reference clip, which builds a profile; the removal of the clip. *)
Definition flaky_mkdir_runtime : Runtime := sample_runtime never (only_at 4) never.
Definition stale_profile_trace : list Event :=
  [Serve (PostSynthesize (Ok (synth_body "Hello world" rate_1)));
   Serve (PostReference (Some "RIFFvoice") None);
   RemoveFile "./reference/gm-voice.wav"].

(** A runtime on which [qwen_tts] cannot be imported at first. *)
Definition late_install_runtime : Runtime := sample_runtime (only_at 0) never never.

(** The files of a cache directory that already holds the audio of
    [hello] at rate 1.0. *)
Definition warm_files : gmap string bytes := {[ hello_path := "RIFFcached" ]}.

(** An initialized engine holds a model. *)
Definition initialized_has_model (s : State) : Prop :=
  _initialized (tts_engine s) = true → is_Some (model (tts_engine s)).


(** The digits of a hexadecimal digest, and a test on every character
    of a string. *)
Definition is_hex_digit (c : ascii) : bool :=
  existsb (Ascii.eqb c)
    ["0"; "1"; "2"; "3"; "4"; "5"; "6"; "7";
     "8"; "9"; "a"; "b"; "c"; "d"; "e"; "f"]%char.

Fixpoint all_chars (p : ascii → bool) (s : string) : bool :=
  match s with
  | EmptyString => true
  | String c rest => p c && all_chars p rest
  end.


(** A runtime on which no directory can be created. *)
Definition read_only_runtime : Runtime := sample_runtime never always never.

(** * Properties *)

(** ** The digest against hashlib's answers *)

Example md5_empty : MD5.hexdigest "" = "d41d8cd98f00b204e9800998ecf8427e".
Proof. vm_compute. reflexivity. Qed.

Example md5_abc : MD5.hexdigest "abc" = "900150983cd24fb0d6963f7d28e17f72".
Proof. vm_compute. reflexivity. Qed.

Example md5_hello :
  MD5.hexdigest "Hello world|1.0|Qwen/Qwen3-TTS-12Hz-0.6B-Base"
  = "7f019809f1da51ecf5d234ef4c4b4525".
Proof. vm_compute. reflexivity. Qed.

Example md5_two_blocks :
  MD5.hexdigest "xxxxxxxxxxxxxxxxxxxxxxxxxxxxxxxxxxxxxxxxxxxxxxxxxxxxxxxx"
  = "668a72d5ba17f08e62dabcafad6db14b".
Proof. vm_compute. reflexivity. Qed.

(** ** Running server code symbolically *)

Ltac munfold :=
  unfold Engine.synthesize, Engine.lazy_initialize, Engine.initialize,
    Engine._load_voice_prompt, Engine._array_to_wav, Engine.model_attr,
    try_except, slice50, logger,
    set_model, set_voice_prompt, set_initialized, cache_store, set_reference_text,
    mbind, M_bind, mret, M_ret, get_config, get_engine, lift, raise,
    modify, extern, path_exists, read_file, write_with in *.

Ltac msimpl :=
  cbn [fst snd config tts_engine world with_engine with_world
       model voice_prompt audio_cache _initialized _download_progress
       files logs calls add_log add_call put_file level_enabled negb
       host port model_name cache_dir reference_audio reference_text device] in *.

Ltac mcases :=
  repeat (first
    [ progress msimpl
    | progress simplify_eq
    | match goal with
      | |- context [match ?x with _ => _ end] =>
        lazymatch x with
        | context [match _ with _ => _ end] => fail
        | _ => destruct x eqn:?
        end
      end ]).

Ltac some_goals :=
  unfold is_Some in *;
  match goal with
  | |- (_ → _) → _ → _ =>
    let Hp := fresh in intros Hp [? ?]; simplify_eq; eauto
  | |- _ → _ => intros [? ?]; simplify_eq; eauto
  end.

Ltac later_calls :=
  first [ by exists [] | by eexists [_] | by eexists [_; _] | by eexists [_; _; _]
        | by eexists [_; _; _; _] | by eexists [_; _; _; _; _]
        | by eexists [_; _; _; _; _; _] | by eexists [_; _; _; _; _; _; _] ].

(** ** Effects of the engine's methods *)

Lemma load_voice_prompt_missing rt s :
  files (world s) !! reference_audio (config s) = None →
  Engine._load_voice_prompt rt s =
    (Ok tt,
     with_world (add_log (WARNING, LogCloningDisabled))
       (with_world (add_log (WARNING, LogReferenceNotFound (reference_audio (config s)))) s)).
Proof.
  intros H. munfold. rewrite H. reflexivity.
Qed.

Lemma load_voice_prompt_effect rt s :
  let r := Engine._load_voice_prompt rt s in
  fst r = Ok tt ∧
  config (snd r) = config s ∧
  model (tts_engine (snd r)) = model (tts_engine s) ∧
  audio_cache (tts_engine (snd r)) = audio_cache (tts_engine s) ∧
  _initialized (tts_engine (snd r)) = _initialized (tts_engine s) ∧
  files (world (snd r)) = files (world s) ∧
  init_attempts (snd r) = init_attempts s ∧
  (is_Some (voice_prompt (tts_engine (snd r))) →
   is_Some (model (tts_engine s)) ∨
   voice_prompt (tts_engine (snd r)) = voice_prompt (tts_engine s)).
Proof.
  munfold. mcases; repeat split; eauto; some_goals.
Qed.

Lemma initialize_effect rt s :
  let r := Engine.initialize rt s in
  config (snd r) = config s ∧
  audio_cache (tts_engine (snd r)) = audio_cache (tts_engine s) ∧
  files (world (snd r)) = files (world s) ∧
  (is_Some (model (tts_engine s)) → is_Some (model (tts_engine (snd r)))) ∧
  (profile_needs_model s → profile_needs_model (snd r)) ∧
  (_initialized (tts_engine s) = true → r = (Ok tt, s)) ∧
  (_initialized (tts_engine s) = false →
   (∃ later, calls (world (snd r)) = (later ++ CallImportQwenTTS :: calls (world s))%list) ∧
   init_attempts (snd r) = S (init_attempts s) ∧
   match fst r with
   | Ok _ => _initialized (tts_engine (snd r)) = true ∧ is_Some (model (tts_engine (snd r)))
   | Raise _ => _initialized (tts_engine (snd r)) = false
   end).
Proof.
  unfold profile_needs_model, init_attempts.
  munfold. mcases; repeat split; eauto; try discriminate; try later_calls;
    try some_goals.
Qed.

Lemma lazy_initialize_done rt s :
  _initialized (tts_engine s) = true → Engine.lazy_initialize rt s = (Ok tt, s).
Proof.
  intros H. unfold Engine.lazy_initialize. munfold. rewrite H. reflexivity.
Qed.

Lemma lazy_initialize_eq rt s :
  _initialized (tts_engine s) = false → Engine.lazy_initialize rt s = Engine.initialize rt s.
Proof.
  intros H. unfold Engine.lazy_initialize.
  unfold mbind, M_bind, get_engine. rewrite H. reflexivity.
Qed.

Lemma bind_run {A B : Type} (m : M A) (k : A → M B) (s : State) :
  (m ≫= k) s =
  match m s with
  | (Ok a, s') => k a s'
  | (Raise e, s') => (Raise e, s')
  end.
Proof. reflexivity. Qed.

Lemma insert_fresh_keeps (m : gmap string bytes) (key k : string) (d v : bytes) :
  m !! key = None → m !! k = Some v → <[key := d]> m !! k = Some v.
Proof.
  intros Hnone Hk. destruct (decide (key = k)) as [->|Hne].
  - congruence.
  - by rewrite lookup_insert_ne.
Qed.

Lemma synthesize_initialized_effect rt text rate s :
  _initialized (tts_engine s) = true →
  let r := Engine.synthesize rt text rate s in
  let key := Engine._get_cache_key rt (config s) text rate in
  config (snd r) = config s ∧
  model (tts_engine (snd r)) = model (tts_engine s) ∧
  voice_prompt (tts_engine (snd r)) = voice_prompt (tts_engine s) ∧
  _initialized (tts_engine (snd r)) = true ∧
  init_attempts (snd r) = init_attempts s ∧
  (∀ k v, audio_cache (tts_engine s) !! k = Some v →
          audio_cache (tts_engine (snd r)) !! k = Some v) ∧
  (∀ audio, fst r = Ok audio →
            sliceable text = true ∧
            audio_cache (tts_engine (snd r)) !! key = Some audio).
Proof.
  intros Hinit. unfold Engine.synthesize. rewrite bind_run, lazy_initialize_done by done.
  unfold init_attempts.
  munfold. mcases; repeat split; eauto using insert_fresh_keeps;
    try discriminate; intros; simplify_eq; eauto using lookup_insert_eq;
    try (destruct text; done); try apply lookup_insert_eq.
Qed.

Lemma lazy_initialize_ok rt s s1 :
  Engine.lazy_initialize rt s = (Ok tt, s1) → _initialized (tts_engine s1) = true.
Proof.
  intros H. destruct (_initialized (tts_engine s)) eqn:Hi.
  - rewrite lazy_initialize_done in H by done. by simplify_eq.
  - rewrite lazy_initialize_eq in H by done.
    pose proof (initialize_effect rt s) as (_ & _ & _ & _ & _ & _ & Hf).
    destruct (Hf Hi) as (_ & _ & Hr). rewrite H in Hr. apply Hr.
Qed.

Lemma synthesize_after_init rt text rate s s1 :
  Engine.lazy_initialize rt s = (Ok tt, s1) →
  Engine.synthesize rt text rate s = Engine.synthesize rt text rate s1.
Proof.
  intros H. pose proof (lazy_initialize_ok _ _ _ H) as Hi.
  unfold Engine.synthesize. rewrite !bind_run, H, lazy_initialize_done by done.
  reflexivity.
Qed.

Lemma synthesize_init_failed rt text rate s e s1 :
  Engine.lazy_initialize rt s = (Raise e, s1) →
  Engine.synthesize rt text rate s = (Raise e, s1).
Proof.
  intros H. unfold Engine.synthesize. rewrite bind_run, H. reflexivity.
Qed.

Lemma synthesize_memory_hit rt text rate s audio :
  _initialized (tts_engine s) = true →
  sliceable text = true →
  audio_cache (tts_engine s) !! Engine._get_cache_key rt (config s) text rate = Some audio →
  Engine.synthesize rt text rate s = (Ok audio, s).
Proof.
  intros Hi Hs Hc. unfold Engine.synthesize.
  rewrite bind_run, lazy_initialize_done by done.
  unfold mbind, M_bind, get_config, get_engine. rewrite Hc.
  destruct text; try discriminate; reflexivity.
Qed.

Lemma synthesize_file_hit rt text rate s audio :
  _initialized (tts_engine s) = true →
  sliceable text = true →
  let key := Engine._get_cache_key rt (config s) text rate in
  audio_cache (tts_engine s) !! key = None →
  files (world s) !! cache_file (config s) key = Some audio →
  Engine.synthesize rt text rate s = (Ok audio, snd (cache_store key audio s)).
Proof.
  intros Hi Hs key Hc Hf. unfold Engine.synthesize.
  rewrite bind_run, lazy_initialize_done by done.
  unfold cache_file in Hf. munfold. fold key. rewrite Hc, Hf.
  rewrite bool_decide_eq_true_2 by eauto.
  destruct text; try discriminate; msimpl; rewrite Hf; reflexivity.
Qed.

Lemma synthesize_miss rt text rate s m :
  _initialized (tts_engine s) = true →
  sliceable text = true →
  let key := Engine._get_cache_key rt (config s) text rate in
  audio_cache (tts_engine s) !! key = None →
  files (world s) !! cache_file (config s) key = None →
  model (tts_engine s) = Some m →
  let s' := snd (Engine.synthesize rt text rate s) in
  (INFO, LogSynthesizing text) ∈ logs (world s') ∧
  ∃ later,
    calls (world s') =
    (later ++ speech_call m (voice_prompt (tts_engine s)) text rate :: calls (world s))%list.
Proof.
  intros Hi Hs key Hc Hf Hm. unfold Engine.synthesize.
  rewrite bind_run, lazy_initialize_done by done.
  unfold cache_file in Hf. munfold. fold key. rewrite Hc, Hf.
  rewrite bool_decide_eq_false_2 by (intros [? ?]; discriminate).
  unfold speech_call.
  destruct text; try discriminate;
    msimpl; destruct (voice_prompt (tts_engine s)); msimpl; rewrite Hm;
    mcases; (split; [ set_solver | later_calls ]).
Qed.

Lemma synthesize_effect rt text rate s :
  let r := Engine.synthesize rt text rate s in
  config (snd r) = config s ∧
  (∀ k v, audio_cache (tts_engine s) !! k = Some v →
          audio_cache (tts_engine (snd r)) !! k = Some v) ∧
  (_initialized (tts_engine s) = true →
   _initialized (tts_engine (snd r)) = true ∧ init_attempts (snd r) = init_attempts s) ∧
  (_initialized (tts_engine s) = false → init_attempts (snd r) = S (init_attempts s)) ∧
  (is_Some (model (tts_engine s)) → is_Some (model (tts_engine (snd r)))) ∧
  (profile_needs_model s → profile_needs_model (snd r)) ∧
  (∀ audio, fst r = Ok audio →
            _initialized (tts_engine (snd r)) = true ∧
            sliceable text = true ∧
            audio_cache (tts_engine (snd r))
              !! Engine._get_cache_key rt (config s) text rate = Some audio).
Proof.
  destruct (_initialized (tts_engine s)) eqn:Hi.
  - pose proof (synthesize_initialized_effect rt text rate s Hi)
      as (Hc & Hm & Hv & Hi' & Ha & Hk & Hr).
    cbv zeta. unfold profile_needs_model. rewrite Hm, Hv.
    repeat split; eauto; try discriminate;
      match goal with
      | Hx : fst _ = Ok ?a, Hy : ∀ audio, fst _ = Ok audio → _ |- _ =>
        destruct (Hy a Hx); done
      end.
  - pose proof (initialize_effect rt s) as (Hc & Hk & _ & Hm & Hp & _ & Hf).
    destruct (Hf Hi) as (_ & Ha & Hr). clear Hf.
    pose proof (lazy_initialize_eq rt s Hi) as Hl.
    destruct (Engine.initialize rt s) as [[[]|e] s1] eqn:Hinit; cbn [fst snd] in *.
    + destruct Hr as [Hi1 Hm1].
      cbv zeta. rewrite (synthesize_after_init rt text rate s s1) by done.
      pose proof (synthesize_initialized_effect rt text rate s1 Hi1)
        as (Hc' & Hm' & Hv' & Hi' & Ha' & Hk' & Hr').
      unfold profile_needs_model in *. rewrite Hc', Hm', Hv', Ha', Hc.
      rewrite Hc in Hr'.
      repeat split; eauto; try discriminate.
      * intros k v Hkv. apply Hk'. by rewrite Hk.
      * match goal with
      | Hx : fst _ = Ok ?a, Hy : ∀ audio, fst _ = Ok audio → _ |- _ =>
        destruct (Hy a Hx); done
      end.
      * match goal with
      | Hx : fst _ = Ok ?a, Hy : ∀ audio, fst _ = Ok audio → _ |- _ =>
        destruct (Hy a Hx); done
      end.
    + cbv zeta. rewrite (synthesize_init_failed rt text rate s e s1) by done.
      cbn [fst snd]. repeat split; eauto; try discriminate.
      intros k v Hkv. by rewrite Hk.
Qed.

(** ** What a run of the server keeps *)

Lemma advances_refl s : advances s s.
Proof. unfold advances. repeat split; auto. Qed.

Lemma advances_trans s1 s2 s3 : advances s1 s2 → advances s2 s3 → advances s1 s3.
Proof.
  unfold advances.
  intros (Hn & Hd & Hr & Hc & Hi & Hm & Ha & Hb & Hp)
         (Hn' & Hd' & Hr' & Hc' & Hi' & Hm' & Ha' & Hb' & Hp').
  split; [congruence|]. split; [congruence|]. split; [congruence|].
  split; [eauto|]. split.
  { intros Hx. destruct (Hi Hx) as [H1 H2]. destruct (Hi' H1). split; congruence. }
  split; [eauto|]. split; [lia|]. split; [|eauto].
  intros Hx. destruct (Hb' Hx) as [H2|H2].
  - destruct (Hb H2); [by left | right; lia].
  - right; lia.
Qed.

Lemma synthesize_advances rt text rate s :
  advances s (snd (Engine.synthesize rt text rate s)).
Proof.
  pose proof (synthesize_effect rt text rate s) as (Hc & Hk & Hi & Hu & Hm & Hp & _).
  cbv zeta in *. unfold advances. rewrite Hc.
  destruct (_initialized (tts_engine s)) eqn:Hinit.
  - destruct Hi as [Hi Ha]; [done|]. rewrite Ha.
    pose proof (synthesize_initialized_effect rt text rate s Hinit) as (_ & Hm' & _).
    cbv zeta in Hm'. rewrite Hm'.
    repeat split; eauto.
  - rewrite Hu by done. repeat split; eauto; try discriminate.
Qed.

Lemma with_log_advances s r : advances s (with_world (add_log r) s).
Proof. unfold advances, profile_needs_model, init_attempts. repeat split; auto. Qed.

Lemma synthesize_route_advances rt get_json s :
  advances s (snd (Route.synthesize rt get_json s)).
Proof.
  unfold Route.synthesize, try_except, logger, modify, lift, mbind, M_bind, mret, M_ret.
  msimpl.
  mcases; try apply advances_refl; try apply with_log_advances;
    match goal with
    | H : Engine.synthesize ?rt ?t ?r ?s = (_, ?s') |- _ =>
      let Ha := fresh in
      pose proof (synthesize_advances rt t r s) as Ha; rewrite H in Ha; cbn [snd] in Ha
    end; eauto using advances_trans, with_log_advances.
Qed.

Lemma upload_reference_advances rt audio text s :
  advances s (snd (Route.upload_reference rt audio text s)).
Proof.
  unfold Route.upload_reference, advances, profile_needs_model, init_attempts.
  munfold. mcases; repeat split; eauto; try some_goals.
Qed.

Lemma step_advances rt s ev : advances s (step rt s ev).
Proof.
  destruct ev as [r|path]; cbn [step].
  - unfold handle. destruct r; cbn [route].
    + apply advances_refl.
    + pose proof (synthesize_route_advances rt get_json s).
      destruct (Route.synthesize rt get_json s) as [[]]; assumption.
    + apply advances_refl.
    + pose proof (upload_reference_advances rt audio text s).
      destruct (Route.upload_reference rt audio text s) as [[]]; assumption.
    + apply advances_refl.
  - unfold advances, profile_needs_model, init_attempts. repeat split; auto.
Qed.

Lemma run_advances rt evs s : advances s (run rt evs s).
Proof.
  revert s. induction evs as [|ev evs IH]; intros s; cbn.
  - apply advances_refl.
  - eapply advances_trans; [apply step_advances | apply IH].
Qed.

(** ** Keys, tiers and idempotence *)

Lemma cache_key_model_name rt cfg cfg' text rate :
  model_name cfg = model_name cfg' →
  Engine._get_cache_key rt cfg text rate = Engine._get_cache_key rt cfg' text rate.
Proof.
  intros H. unfold Engine._get_cache_key, Engine.cache_key_content. by rewrite H.
Qed.

(** ** Cache lookup (C5)

    C5. A synthesis looks the key up in the memory cache first: on a hit
    it returns the cached bytes and nothing else happens.  On a memory
    miss it looks for the file named by the key in the cache directory:
    if the file exists its bytes are returned and stored in the memory
    cache, and no call leaves the server.  Only when both miss is the
    synthesis logged and the speech model called. *)
Theorem cache_lookup_tier_order (rt : Runtime) (text rate : pyval) (s s1 : State) :
  Engine.lazy_initialize rt s = (Ok tt, s1) →
  sliceable text = true →
  let key := Engine._get_cache_key rt (config s1) text rate in
  let r := Engine.synthesize rt text rate s in
  match audio_cache (tts_engine s1) !! key with
  | Some audio => r = (Ok audio, s1)
  | None =>
    match files (world s1) !! cache_file (config s1) key with
    | Some audio =>
      r = (Ok audio, snd (cache_store key audio s1)) ∧
      audio_cache (tts_engine (snd r)) !! key = Some audio ∧
      calls (world (snd r)) = calls (world s1)
    | None =>
      ∀ m, model (tts_engine s1) = Some m →
        (INFO, LogSynthesizing text) ∈ logs (world (snd r)) ∧
        ∃ later,
          calls (world (snd r)) =
          (later ++ speech_call m (voice_prompt (tts_engine s1)) text rate
                 :: calls (world s1))%list
    end
  end.
Proof.
  intros Hl Hs key r. subst r.
  pose proof (lazy_initialize_ok _ _ _ Hl) as Hi.
  rewrite (synthesize_after_init rt text rate s s1 Hl).
  destruct (audio_cache (tts_engine s1) !! key) as [audio|] eqn:Hc.
  - by apply synthesize_memory_hit.
  - destruct (files (world s1) !! cache_file (config s1) key) as [audio|] eqn:Hf.
    + rewrite (synthesize_file_hit rt text rate s1 audio) by done.
      split; [done|]. fold key. unfold cache_store, modify. cbn.
      split; [apply lookup_insert_eq | done].
    + intros m Hm. by apply synthesize_miss.
Qed.

(** ** Idempotence (C3)

    C3. After a synthesis of (text, rate) that succeeded, a second
    synthesis of the same text and rate returns the same bytes and
    leaves the whole state as it was: it is served from the memory
    cache, no call reaches the speech model, whatever the model would
    answer to one.  The same holds after any further requests and
    removals of files. *)
Theorem synthesize_idempotent (rt : Runtime) (text rate : pyval) (s s' : State)
    (audio : bytes) :
  Engine.synthesize rt text rate s = (Ok audio, s') →
  Engine.synthesize rt text rate s' = (Ok audio, s') ∧
  ∀ evs, let s'' := run rt evs s' in
         Engine.synthesize rt text rate s'' = (Ok audio, s'') ∧
         calls (world (snd (Engine.synthesize rt text rate s''))) = calls (world s'').
Proof.
  intros H.
  pose proof (synthesize_effect rt text rate s) as (Hc & _ & _ & _ & _ & _ & Hr).
  rewrite H in Hc, Hr. cbn [fst snd] in Hc, Hr.
  destruct (Hr audio eq_refl) as (Hi & Hs & Hk). clear Hr.
  assert (Hlater : ∀ evs, let s'' := run rt evs s' in
            Engine.synthesize rt text rate s'' = (Ok audio, s'')).
  { intros evs s''.
    pose proof (run_advances rt evs s') as (Hn & _ & _ & Hkeep & Hinit & _).
    fold s'' in Hn, Hkeep, Hinit.
    apply synthesize_memory_hit; [by apply Hinit | done |].
    rewrite (cache_key_model_name rt (config s'') (config s)) by congruence.
    by apply Hkeep. }
  split.
  - apply (Hlater []).
  - intros evs s''. split; [apply Hlater|]. subst s''. by rewrite Hlater.
Qed.

(** ** A failed write of the cache file (C1) *)

Lemma initialize_last_call rt s :
  _initialized (tts_engine s) = false →
  ∀ path data earlier,
    calls (world (snd (Engine.initialize rt s))) ≠ CallOpenWrite path data :: earlier.
Proof.
  intros Hi path data earlier. munfold. mcases; discriminate.
Qed.

Lemma failed_write_initialized rt text rate s e s' path data earlier :
  _initialized (tts_engine s) = true →
  Engine.synthesize rt text rate s = (Raise e, s') →
  calls (world s') = CallOpenWrite path data :: earlier →
  calls (world s') ≠ calls (world s) →
  let key := Engine._get_cache_key rt (config s) text rate in
  sliceable text = true ∧
  path = cache_file (config s) key ∧
  audio_cache (tts_engine s) !! key = None ∧
  audio_cache (tts_engine s') !! key = Some data ∧
  open_write rt (length earlier) path data ≠ WriteOk ∧
  (files (world s') !! path = None ∨
   ∃ e' written, open_write rt (length earlier) path data = WriteFails e' written ∧
                 files (world s') !! path = Some written).
Proof.
  intros Hi H Hcalls Hnew key. revert H Hcalls Hnew.
  unfold Engine.synthesize. rewrite bind_run, lazy_initialize_done by done.
  unfold cache_file. munfold. unfold clock. fold key.
  mcases; intros H Hcalls Hnew; try discriminate; try congruence;
    injection H as <- <-; msimpl; try congruence;
    injection Hcalls as <- <- <-;
    cbn [length] in *;
    match goal with
    | Hb : bool_decide (is_Some ?o) = false |- _ =>
      apply bool_decide_eq_false_1 in Hb; rewrite <- eq_None_not_Some in Hb
    end;
    (split; [done|]); (split; [done|]); (split; [done|]);
    (split; [apply lookup_insert_eq|]);
    (split; [congruence|]).
  all: first [ by left | right; eexists _, _; split; [eassumption | apply lookup_insert_eq] ].
Qed.

(** Read from the outcome: a synthesis that raised and whose last call
    was the write of a cache file had missed the memory tier, stored
    the entry, and then failed to write. *)
Lemma failed_write_left_memory_entry (rt : Runtime) (text rate : pyval)
    (s s' : State) (e : exn) (path : string) (data : bytes) (earlier : list ext_call) :
  Engine.synthesize rt text rate s = (Raise e, s') →
  calls (world s') = CallOpenWrite path data :: earlier →
  (length (calls (world s)) ≤ length earlier)%nat →
  let key := Engine._get_cache_key rt (config s) text rate in
  path = cache_file (config s) key ∧
  audio_cache (tts_engine s) !! key = None ∧
  open_write rt (length earlier) path data ≠ WriteOk ∧
  audio_cache (tts_engine s') !! key = Some data ∧
  (files (world s') !! path = None ∨
   ∃ e' written, open_write rt (length earlier) path data = WriteFails e' written ∧
                 files (world s') !! path = Some written) ∧
  Engine.synthesize rt text rate s' = (Ok data, s').
Proof.
  intros H Hcalls Hlen key.
  assert (∃ s1, Engine.lazy_initialize rt s = (Ok tt, s1) ∧
                calls (world s') ≠ calls (world s1)) as (s1 & Hl & Hnew).
  { destruct (_initialized (tts_engine s)) eqn:Hi.
    - exists s. split; [by apply lazy_initialize_done|].
      rewrite Hcalls. intros Heq. rewrite <- Heq in Hlen. cbn in Hlen. lia.
    - pose proof (initialize_last_call rt s Hi) as Hlast.
      pose proof (lazy_initialize_eq rt s Hi) as Heq.
      destruct (Engine.initialize rt s) as [[[]|e1] s1] eqn:Hinit; cbn [snd] in Hlast.
      + exists s1. split; [done|]. rewrite Hcalls. intros Hx. by eapply Hlast.
      + rewrite (synthesize_init_failed rt text rate s e1 s1) in H by done.
        simplify_eq. by edestruct Hlast. }
  pose proof (lazy_initialize_ok _ _ _ Hl) as Hi1.
  rewrite (synthesize_after_init rt text rate s s1 Hl) in H.
  assert (config s1 = config s ∧
          audio_cache (tts_engine s1) = audio_cache (tts_engine s)) as [Hc Hk].
  { destruct (_initialized (tts_engine s)) eqn:Hi.
    - rewrite lazy_initialize_done in Hl by done. by simplify_eq.
    - rewrite lazy_initialize_eq in Hl by done.
      pose proof (initialize_effect rt s) as (Hc & Hk & _). rewrite Hl in Hc, Hk.
      done. }
  pose proof (failed_write_initialized rt text rate s1 e s' path data earlier
                Hi1 H Hcalls Hnew) as (Hs & Hp & Hnone & Hsome & Hw & Hf).
  rewrite Hc, ?Hk in *. fold key in Hp, Hnone, Hsome.
  repeat split; try done.
  pose proof (synthesize_initialized_effect rt text rate s1 Hi1) as (Hc' & _ & _ & Hi' & _).
  rewrite H in Hc', Hi'. cbn [snd] in Hc', Hi'.
  apply synthesize_memory_hit; [done | done |].
  rewrite Hc', Hc. exact Hsome.
Qed.

(** C1 (as the code has it).  A synthesis of a text that misses both
    tiers, for which the model produced audio that was encoded to
    [audio], and whose write of the cache file fails with [e]: the
    synthesis fails, raising the write's error [e] to the caller after
    logging it; the memory entry for the key was stored before the
    write was tried and stays, holding [audio]; the cache file is
    missing, or holds what was written before the failure; and the
    next synthesis of the same text and rate is served from memory. *)
Theorem failed_cache_write_keeps_memory_entry (rt : Runtime) (text rate : pyval)
    (s s1 : State) (m : Model) (audio_array : AudioArray) (sample_rate : Z)
    (frames audio : bytes) (e : exn) :
  Engine.lazy_initialize rt s = (Ok tt, s1) →
  sliceable text = true →
  let key := Engine._get_cache_key rt (config s) text rate in
  let path := cache_file (config s) key in
  audio_cache (tts_engine s) !! key = None →
  files (world s) !! path = None →
  model (tts_engine s1) = Some m →
  match voice_prompt (tts_engine s1) with
  | Some vp => generate_voice_clone rt (clock s1) m text vp rate
  | None => generate rt (clock s1) m text rate
  end = Ok (audio_array, sample_rate) →
  numpy_int16_bytes rt audio_array = Ok frames →
  wave_write rt frames sample_rate = Ok audio →
  let outcome := open_write rt (S (clock s1)) path audio in
  write_error outcome = Some e →
  ∃ s',
    Engine.synthesize rt text rate s = (Raise e, s') ∧
    audio_cache (tts_engine s') !! key = Some audio ∧
    files (world s') !! path = written_before_failure outcome ∧
    head (logs (world s')) = Some (ERROR, LogSynthesisFailed e) ∧
    Engine.synthesize rt text rate s' = (Ok audio, s').
Proof.
  intros Hl Hs key path Hc Hf Hm Hgen Hnp Hwav outcome Hw.
  pose proof (lazy_initialize_ok _ _ _ Hl) as Hi1.
  assert (config s1 = config s ∧
          audio_cache (tts_engine s1) = audio_cache (tts_engine s) ∧
          files (world s1) = files (world s)) as (Hc1 & Hk1 & Hf1).
  { destruct (_initialized (tts_engine s)) eqn:Hi.
    - rewrite lazy_initialize_done in Hl by done. by simplify_eq.
    - rewrite lazy_initialize_eq in Hl by done.
      pose proof (initialize_effect rt s) as (H1 & H2 & H3 & _).
      rewrite Hl in H1, H2, H3. done. }
  rewrite (synthesize_after_init rt text rate s s1 Hl).
  assert (Hrun : ∃ s', Engine.synthesize rt text rate s1 = (Raise e, s') ∧
            config s' = config s1 ∧
            _initialized (tts_engine s') = true ∧
            audio_cache (tts_engine s') !! key = Some audio ∧
            files (world s') !! path = written_before_failure outcome ∧
            head (logs (world s')) = Some (ERROR, LogSynthesisFailed e)).
  { subst outcome path key. unfold cache_file in *. revert Hw.
    rewrite <- Hc1, <- Hk1, <- Hf1 in *. clear Hc1 Hk1 Hf1 Hl.
    unfold Engine.synthesize. rewrite bind_run, lazy_initialize_done by done.
    munfold. unfold clock in *. rewrite Hc, Hf.
    rewrite bool_decide_eq_false_2 by (intros [? ?]; discriminate).
    destruct text; try discriminate; msimpl;
      destruct (voice_prompt (tts_engine s1)); msimpl; rewrite Hm; msimpl;
      rewrite Hgen; msimpl;
      rewrite Hnp; msimpl; rewrite Hwav; msimpl; cbn [length];
      match goal with
      | |- context [open_write ?a ?b ?c ?d] => destruct (open_write a b c d) eqn:Ho
      end; cbn [write_error written_before_failure]; intros [= <-];
      eexists; (split; [reflexivity|]); msimpl;
      rewrite ?lookup_insert_eq; auto. }
  destruct Hrun as (s' & Hsyn & Hc' & Hi' & Hmem & Hfile & Hlog).
  exists s'. repeat (split; [assumption|]).
  apply synthesize_memory_hit; [done | done |].
  rewrite (cache_key_model_name rt (config s') (config s)) by congruence.
  exact Hmem.
Qed.

(** On a full disk the first synthesis fails and yet leaves its memory
    entry behind. *)
Lemma cache_put_not_atomic : ¬ put_is_atomic full_disk_runtime hello rate_1 (boot ∅).
Proof.
  intros H.
  pose (s' := snd (Engine.synthesize full_disk_runtime hello rate_1 (boot ∅))).
  assert (H1 : Engine.synthesize full_disk_runtime hello rate_1 (boot ∅)
               = (Raise (Exn OSError "No space left on device"), s'))
    by (vm_compute; reflexivity).
  assert (H2 : calls (world s')
               = CallOpenWrite hello_path "RIFF5" :: tail (calls (world s')))
    by (vm_compute; reflexivity).
  assert (H3 : (length (calls (world (boot ∅))) ≤ length (tail (calls (world s'))))%nat)
    by (vm_compute; lia).
  specialize (H _ _ _ _ _ H1 H2 H3).
  vm_compute in H. discriminate H.
Qed.

(** On a full disk the first request initializes the engine, the model
    speaks, the write of the cache file fails at its [open], and the
    synthesis raises that error with the memory entry in place. *)
Lemma failed_cache_write_witness :
  let s1 := snd (Engine.lazy_initialize full_disk_runtime (boot ∅)) in
  open_write full_disk_runtime (S (clock s1)) hello_path "RIFF5"
  = OpenFails (Exn OSError "No space left on device") ∧
  ∃ s',
    Engine.synthesize full_disk_runtime hello rate_1 (boot ∅)
    = (Raise (Exn OSError "No space left on device"), s') ∧
    audio_cache (tts_engine s') !! hello_key = Some "RIFF5" ∧
    files (world s') !! hello_path = None ∧
    Engine.synthesize full_disk_runtime hello rate_1 s' = (Ok "RIFF5", s').
Proof.
  intros s1.
  assert (Hl : Engine.lazy_initialize full_disk_runtime (boot ∅) = (Ok tt, s1))
    by (vm_compute; reflexivity).
  assert (Hk : Engine._get_cache_key full_disk_runtime (config (boot ∅)) hello rate_1
               = hello_key) by (vm_compute; reflexivity).
  assert (Hp : cache_file (config (boot ∅)) hello_key = hello_path)
    by (vm_compute; reflexivity).
  assert (Hc : audio_cache (tts_engine (boot ∅)) !! hello_key = None)
    by (vm_compute; reflexivity).
  assert (Hf : files (world (boot ∅)) !! hello_path = None) by (vm_compute; reflexivity).
  assert (Hm : model (tts_engine s1) = Some (ModelObj 3)) by (vm_compute; reflexivity).
  assert (Hg : match voice_prompt (tts_engine s1) with
               | Some vp => generate_voice_clone full_disk_runtime (clock s1) (ModelObj 3)
                              hello vp rate_1
               | None => generate full_disk_runtime (clock s1) (ModelObj 3) hello rate_1
               end = Ok (AudioArrayObj 5, 24000)) by (vm_compute; reflexivity).
  assert (Hn : numpy_int16_bytes full_disk_runtime (AudioArrayObj 5) = Ok "5")
    by (vm_compute; reflexivity).
  assert (Hw : wave_write full_disk_runtime "5" 24000 = Ok "RIFF5")
    by (vm_compute; reflexivity).
  assert (Ho : open_write full_disk_runtime (S (clock s1)) hello_path "RIFF5"
               = OpenFails (Exn OSError "No space left on device"))
    by (vm_compute; reflexivity).
  split; [exact Ho|].
  pose proof (failed_cache_write_keeps_memory_entry full_disk_runtime hello rate_1
                (boot ∅) s1 (ModelObj 3) (AudioArrayObj 5) 24000 "5" "RIFF5"
                (Exn OSError "No space left on device") Hl eq_refl) as H.
  cbv zeta in H. rewrite Hk, Hp in H. specialize (H Hc Hf Hm Hg Hn Hw).
  rewrite Ho in H. destruct (H eq_refl) as (s' & H1 & H2 & H3 & _ & H5).
  exists s'. split; [exact H1|]. split; [exact H2|]. split; [exact H3 | exact H5].
Defined.

(** ** The cache key (C4) *)

Lemma hexdigest_length (data : string) : String.length (MD5.hexdigest data) = 32%nat.
Proof.
  unfold MD5.hexdigest, MD5.digest.
  destruct (MD5.digest_state (MD5.bytes_of_string data)) as [[[a b] c] d].
  reflexivity.
Qed.

Lemma split_at_bar (a b x y : string) :
  no_bar a = true → no_bar b = true →
  a +:+ "|" +:+ x = b +:+ "|" +:+ y → a = b ∧ x = y.
Proof.
  revert b. induction a as [|c a IH]; intros [|c' b] Ha Hb H; cbn in Ha, Hb;
    cbv [String.append] in H; fold String.append in H.
  - by injection H as ->.
  - injection H as <- _. rewrite Ascii.eqb_refl in Hb. discriminate.
  - injection H as -> _. rewrite Ascii.eqb_refl in Ha. discriminate.
  - apply andb_prop in Ha as [_ Ha]. apply andb_prop in Hb as [_ Hb].
    injection H as -> H. destruct (IH b Ha Hb H) as [-> ->]. done.
Qed.

(** C4. The cache key is a function of the text, the rate and the model
    identifier alone: two configurations with the same model identifier
    give the same key, whatever else differs, and the key takes no
    engine or file state.  It is the MD5 hex digest, always 32
    characters long, of the three fields joined by ["|"]; fields free
    of the delimiter are recovered from the hashed text, so two
    requests are not confused by moving characters from one field to
    the next. *)
Theorem cache_key_deterministic (rt : Runtime) (cfg cfg' : ServerConfig)
    (text rate : pyval) :
  model_name cfg = model_name cfg' →
  Engine._get_cache_key rt cfg text rate = Engine._get_cache_key rt cfg' text rate ∧
  String.length (Engine._get_cache_key rt cfg text rate) = 32%nat ∧
  Engine._get_cache_key rt cfg text rate
  = MD5.hexdigest (Engine.fstring rt text +:+ "|" +:+ Engine.fstring rt rate
                   +:+ "|" +:+ model_name cfg) ∧
  ∀ text2 rate2,
    no_bar (Engine.fstring rt text) = true → no_bar (Engine.fstring rt rate) = true →
    no_bar (Engine.fstring rt text2) = true → no_bar (Engine.fstring rt rate2) = true →
    Engine.cache_key_content rt cfg text rate = Engine.cache_key_content rt cfg' text2 rate2 →
    Engine.fstring rt text = Engine.fstring rt text2 ∧
    Engine.fstring rt rate = Engine.fstring rt rate2.
Proof.
  intros Hm. split; [by apply cache_key_model_name|].
  split; [apply hexdigest_length|]. split; [reflexivity|].
  intros text2 rate2 H1 H2 H3 H4. unfold Engine.cache_key_content. intros H.
  apply split_at_bar in H as [Ht H]; [|done..].
  apply split_at_bar in H as [Hr _]; [|done..].
  done.
Qed.

(** ** The profile loader (C2, C6) *)

Lemma load_voice_prompt_build_failed rt s e :
  is_Some (files (world s) !! reference_audio (config s)) →
  (model (tts_engine s) = None ∧
   e = Exn AttributeError
         "'NoneType' object has no attribute 'create_voice_clone_prompt'") ∨
  (∃ m, model (tts_engine s) = Some m ∧
        create_voice_clone_prompt rt (clock s) m (reference_audio (config s))
          (reference_text (config s)) = Raise e) →
  let s' := snd (Engine._load_voice_prompt rt s) in
  voice_prompt (tts_engine s') = None ∧
  head (logs (world s')) = Some (ERROR, LogPromptFailed e).
Proof.
  intros Hf Hb. munfold. unfold clock in *.
  rewrite bool_decide_eq_true_2 by done. msimpl.
  destruct Hb as [[Hm ->]|(m & Hm & Hc)]; rewrite Hm; msimpl.
  - done.
  - rewrite Hc. done.
Qed.

Lemma load_voice_prompt_built rt s m vp :
  is_Some (files (world s) !! reference_audio (config s)) →
  model (tts_engine s) = Some m →
  create_voice_clone_prompt rt (clock s) m (reference_audio (config s))
    (reference_text (config s)) = Ok vp →
  let s' := snd (Engine._load_voice_prompt rt s) in
  voice_prompt (tts_engine s') = Some vp ∧
  calls (world s') =
    CallCreateVoiceClonePrompt m (reference_audio (config s)) (reference_text (config s))
    :: calls (world s).
Proof.
  intros Hf Hm Hc. munfold. unfold clock in *.
  rewrite bool_decide_eq_true_2 by done. msimpl. rewrite Hm. msimpl. rewrite Hc. done.
Qed.

(** When the reference file exists the loader does replace the profile. *)
Lemma profile_replaced_when_file_exists rt s :
  is_Some (files (world s) !! reference_audio (config s)) → profile_replaced rt s.
Proof.
  intros Hf. unfold profile_replaced.
  destruct (model (tts_engine s)) as [m|] eqn:Hm.
  - destruct (create_voice_clone_prompt rt (clock s) m (reference_audio (config s))
                (reference_text (config s))) as [vp|e] eqn:Hc.
    + destruct (load_voice_prompt_built rt s m vp Hf Hm Hc) as [Hv Hcalls].
      right. eauto 10.
    + left. eapply load_voice_prompt_build_failed; eauto.
  - left. eapply load_voice_prompt_build_failed; eauto.
Qed.

(** What holds of C6 in every state.  The profile loader never raises.
    When the reference file does not exist it builds nothing: the
    engine is left as it was, no call reaches the speech model, two
    warnings are logged; if no profile was active, a synthesis that
    misses the cache then calls the model's default voice.  When the
    file exists and the build fails (no model is loaded, or the model
    raises), the failure is logged and the active profile is absent. *)
Lemma profile_loader_absorbs_failures (rt : Runtime) (s : State) :
  let r := Engine._load_voice_prompt rt s in
  let ref := reference_audio (config s) in
  fst r = Ok tt ∧
  (files (world s) !! ref = None →
   tts_engine (snd r) = tts_engine s ∧
   calls (world (snd r)) = calls (world s) ∧
   logs (world (snd r)) =
     (WARNING, LogCloningDisabled) :: (WARNING, LogReferenceNotFound ref)
     :: logs (world s) ∧
   (voice_prompt (tts_engine s) = None →
    has_voice_clone (tts_engine (snd r)) = false ∧
    ∀ text rate m,
      _initialized (tts_engine (snd r)) = true →
      sliceable text = true →
      model (tts_engine (snd r)) = Some m →
      let key := Engine._get_cache_key rt (config (snd r)) text rate in
      audio_cache (tts_engine (snd r)) !! key = None →
      files (world (snd r)) !! cache_file (config (snd r)) key = None →
      ∃ later,
        calls (world (snd (Engine.synthesize rt text rate (snd r)))) =
        (later ++ CallGenerate m text rate :: calls (world (snd r)))%list)) ∧
  (is_Some (files (world s) !! ref) →
   ∀ e,
     (model (tts_engine s) = None ∧
      e = Exn AttributeError
            "'NoneType' object has no attribute 'create_voice_clone_prompt'") ∨
     (∃ m, model (tts_engine s) = Some m ∧
           create_voice_clone_prompt rt (clock s) m ref (reference_text (config s))
           = Raise e) →
     voice_prompt (tts_engine (snd r)) = None ∧
     head (logs (world (snd r))) = Some (ERROR, LogPromptFailed e)).
Proof.
  intros r ref. subst r ref.
  split; [apply load_voice_prompt_effect|]. split.
  - intros Hf. rewrite (load_voice_prompt_missing rt s Hf). cbn [snd].
    split; [done|]. split; [done|]. split; [done|].
    intros Hv. split; [unfold has_voice_clone; cbn; by rewrite Hv|].
    intros text rate m Hi Hs Hm Hc Hfile.
    destruct (synthesize_miss rt text rate _ m Hi Hs Hc Hfile Hm) as [_ [later Hl]].
    exists later. rewrite Hl. cbn [tts_engine with_world]. rewrite Hv. done.
  - intros Hf e Hb. by apply load_voice_prompt_build_failed.
Qed.

Lemma initialize_without_file rt s s1 :
  _initialized (tts_engine s) = false →
  files (world s) !! reference_audio (config s) = None →
  Engine.initialize rt s = (Ok tt, s1) →
  voice_prompt (tts_engine s1) = voice_prompt (tts_engine s) ∧
  ∃ later,
    logs (world s1) = ((INFO, LogInitialized) :: (WARNING, LogCloningDisabled) :: later)%list.
Proof.
  intros Hi Hf. munfold. rewrite Hi. msimpl.
  mcases; intros [= <-]; msimpl;
    try match goal with
        | H : negb (bool_decide _) = false |- _ =>
          rewrite Hf in H; cbv in H; discriminate H
        end;
    eauto.
Qed.

(** C6 (where the code departs from it).  The loader never raises, and
    when the reference file does not exist it builds nothing.  But it
    then returns before it touches the engine: a profile that was
    active before the call is still active after it, although the
    loader logs that voice cloning is disabled and the default voice
    used.  An initialization that runs the loader in that state ends
    with the profile active, /health reports voice cloning active, and
    a synthesis that misses the cache then calls the model's
    voice-clone generation with that profile, not the default voice. *)
Theorem missing_reference_keeps_cloned_voice (rt : Runtime) (s : State) (vp : VoicePrompt) :
  files (world s) !! reference_audio (config s) = None →
  voice_prompt (tts_engine s) = Some vp →
  (let r := Engine._load_voice_prompt rt s in
   fst r = Ok tt ∧
   calls (world (snd r)) = calls (world s) ∧
   logs (world (snd r)) =
     (WARNING, LogCloningDisabled)
     :: (WARNING, LogReferenceNotFound (reference_audio (config s))) :: logs (world s) ∧
   voice_prompt (tts_engine (snd r)) = Some vp ∧
   has_voice_clone (tts_engine (snd r)) = true) ∧
  ∀ s1 text rate m,
    _initialized (tts_engine s) = false →
    Engine.initialize rt s = (Ok tt, s1) →
    (∃ later, logs (world s1)
              = (INFO, LogInitialized) :: (WARNING, LogCloningDisabled) :: later) ∧
    voice_prompt (tts_engine s1) = Some vp ∧
    json_field (fst (handle rt GetHealth s1)) "voice_clone_active" = Some (VBool true) ∧
    (sliceable text = true →
     model (tts_engine s1) = Some m →
     let key := Engine._get_cache_key rt (config s1) text rate in
     audio_cache (tts_engine s1) !! key = None →
     files (world s1) !! cache_file (config s1) key = None →
     ∃ later,
       calls (world (snd (Engine.synthesize rt text rate s)))
       = (later ++ CallGenerateVoiceClone m text vp rate :: calls (world s1))%list).
Proof.
  intros Hf Hv. split.
  - cbv zeta. rewrite (load_voice_prompt_missing rt s Hf). cbn [fst snd].
    unfold has_voice_clone. msimpl. rewrite Hv. done.
  - intros s1 text rate m Hi Hinit.
    destruct (initialize_without_file rt s s1 Hi Hf Hinit) as [Hv1 Hlog].
    rewrite Hv in Hv1.
    assert (Hl : Engine.lazy_initialize rt s = (Ok tt, s1))
      by (by rewrite lazy_initialize_eq).
    pose proof (lazy_initialize_ok _ _ _ Hl) as Hi1.
    split; [exact Hlog|]. split; [exact Hv1|]. split.
    + unfold handle. cbn [route]. unfold Route.health_check. munfold. msimpl.
      unfold json_field, jsonify, is_initialized, has_voice_clone. cbn [body fst].
      rewrite Hi1, Hv1. vm_compute. reflexivity.
    + intros Hs Hm key Hc Hfile.
      rewrite (synthesize_after_init rt text rate s s1 Hl).
      destruct (synthesize_miss rt text rate s1 m Hi1 Hs Hc Hfile Hm) as [_ [later Hcalls]].
      exists later. rewrite Hcalls, Hv1. reflexivity.
Qed.

(** C2 (where the code departs from it).  After the events of
    [stale_profile_trace] a profile is active and its reference file is
    gone.  The loader then returns normally and logs that voice cloning
    is disabled, yet the profile that was active before the call is
    still the active one; the next synthesis request, whose
    initialization runs the loader, speaks with that profile. *)
Theorem stale_profile_survives_reload :
  let rt := flaky_mkdir_runtime in
  let s := run rt stale_profile_trace (boot ∅) in
  (files (world s) !! reference_audio (config s) = None ∧
   voice_prompt (tts_engine s) = Some (VoicePromptObj 7)) ∧
  (let r := Engine._load_voice_prompt rt s in
   fst r = Ok tt ∧
   voice_prompt (tts_engine (snd r)) = Some (VoicePromptObj 7) ∧
   head (logs (world (snd r))) = Some (WARNING, LogCloningDisabled) ∧
   ¬ profile_replaced rt s) ∧
  (let s2 := step rt s (Serve (PostSynthesize (Ok (synth_body "Hello world" rate_1)))) in
   logs (world s2) !! 2%nat = Some (WARNING, LogCloningDisabled) ∧
   calls (world s2) !! 1%nat =
     Some (CallGenerateVoiceClone (ModelObj 11) hello (VoicePromptObj 7) rate_1)).
Proof.
  intros rt s. split; [|split].
  - split; vm_compute; reflexivity.
  - intros r. split; [vm_compute; reflexivity|].
    split; [vm_compute; reflexivity|]. split; [vm_compute; reflexivity|].
    unfold profile_replaced. fold r. intros [H|(m & path & text & vp & H & _)].
    + vm_compute in H. discriminate H.
    + apply (f_equal length) in H. vm_compute in H. discriminate H.
  - intros s2. split; vm_compute; reflexivity.
Qed.

(** ** Initialization (C7) *)




(** What the route does once the body has a text and a rate that
    clamps. *)
Lemma synthesize_route_run rt d text rate s :
  d !! "text" = Some text →
  clamp_rate (default (VFloat (FFinite 1)) (d !! "rate")) = Ok rate →
  Route.synthesize rt (Ok (VDict d)) s =
  match Engine.synthesize rt text rate s with
  | (Ok audio_data, s') =>
    (Ok {| status := 200;
           body := DataBody audio_data "audio/wav"
                     [("Content-Disposition", "inline; filename=speech.wav");
                      ("Cache-Control", "public, max-age=3600")] |}, s')
  | (Raise e, s') =>
    (Ok (jsonify (error_body (exn_str e)) 500),
     with_world (add_log (ERROR, LogSynthesisError e)) s')
  end.
Proof.
  intros Ht Hr.
  assert (Hne : d ≠ ∅) by (intros ->; by rewrite lookup_empty in Ht).
  unfold Route.synthesize, try_except, lift, mbind, M_bind, Result_bind, mret, M_ret,
    Result_ret, truthy, py_contains, py_getitem, py_get.
  rewrite (bool_decide_eq_false_2 (d = ∅)) by done.
  rewrite Ht. rewrite bool_decide_eq_true_2 by eauto. cbn [negb].
  rewrite Hr.
  destruct (Engine.synthesize rt text rate s) as [[audio|e] s']; reflexivity.
Qed.


(** ** The /synthesize route (C8, C9) *)

Lemma clamp_rate_number v q :
  number_value v = Some q →
  clamp_rate v =
  Ok (if Qle_bool (2 # 1) q then VFloat (FFinite (2 # 1))
      else if Qle_bool q (1 # 2) then VFloat (FFinite (1 # 2))
      else v).
Proof.
  intros Hv. unfold clamp_rate, py_min, py_max, mbind, Result_bind, mret, Result_ret.
  destruct v as [|b|z|[| |q']| | |]; try discriminate; cbn in Hv; simplify_eq;
    cbn [py_lt_float py_gt_float]; unfold Qlt_bool;
    (destruct (Qle_bool (2 # 1) _) eqn:H2; cbn [negb py_gt_float];
     [reflexivity|]);
    unfold Qlt_bool; destruct (Qle_bool _ (1 # 2)); reflexivity.
Qed.

Lemma clamp_Q_range q : (1 # 2 <= clamp_Q q)%Q ∧ (clamp_Q q <= 2 # 1)%Q.
Proof.
  unfold clamp_Q.
  destruct (Qle_bool (2 # 1) q) eqn:H2; [split; by apply Qle_bool_iff|].
  destruct (Qle_bool q (1 # 2)) eqn:H1; [split; by apply Qle_bool_iff|].
  split.
  - apply Qlt_le_weak, Qnot_le_lt. intros H. apply Qle_bool_iff in H. congruence.
  - apply Qlt_le_weak, Qnot_le_lt. intros H. apply Qle_bool_iff in H. congruence.
Qed.

Lemma clamp_Q_in_range q : (1 # 2 <= q)%Q → (q <= 2 # 1)%Q → (clamp_Q q == q)%Q.
Proof.
  intros H1 H2. unfold clamp_Q.
  destruct (Qle_bool (2 # 1) q) eqn:Ha.
  - apply Qle_bool_iff in Ha. by apply Qle_antisym.
  - destruct (Qle_bool q (1 # 2)) eqn:Hb; [|reflexivity].
    apply Qle_bool_iff in Hb. by apply Qle_antisym.
Qed.

Lemma clamp_rate_spec v :
  is_number v = true →
  ∃ clamped,
    clamp_rate v = Ok clamped ∧
    clamp_rate clamped = Ok clamped ∧
    in_rate_range clamped ∧
    ∀ q, number_value v = Some q → number_value clamped = Some (clamp_Q q).
Proof.
  intros Hn.
  destruct (number_value v) as [q|] eqn:Hv.
  - pose proof (clamp_rate_number v q Hv) as Hc.
    pose proof (clamp_Q_range q) as Hrange.
    unfold clamp_Q in Hrange.
    eexists. split; [exact Hc|].
    destruct (Qle_bool (2 # 1) q) eqn:H2; [|destruct (Qle_bool q (1 # 2)) eqn:H1].
    + split; [reflexivity|]. split; [by exists (2 # 1)|].
      intros q' [= <-]. unfold clamp_Q. by rewrite H2.
    + split; [reflexivity|]. split; [by exists (1 # 2)|].
      intros q' [= <-]. unfold clamp_Q. by rewrite H2, H1.
    + split; [exact Hc|]. split; [by exists q|].
      intros q' [= <-]. unfold clamp_Q. by rewrite H2, H1.
  - destruct v as [|b|z|[|[]|q']| | |]; try discriminate.
    + exists (VFloat (FFinite (2 # 1))). split; [reflexivity|]. split; [reflexivity|].
      split; [by exists (2 # 1)|]. discriminate.
    + exists (VFloat (FFinite (1 # 2))). split; [reflexivity|]. split; [reflexivity|].
      split; [by exists (1 # 2)|]. discriminate.
    + exists (VFloat (FFinite (2 # 1))). split; [reflexivity|]. split; [reflexivity|].
      split; [by exists (2 # 1)|]. discriminate.
Qed.

Lemma synthesize_route_missing_text rt data s :
  truthy data = false ∨ (∃ d, data = VDict d ∧ d !! "text" = None) →
  Route.synthesize rt (Ok data) s =
  (Ok (jsonify (error_body "Missing 'text' field") 400), s).
Proof.
  intros H.
  unfold Route.synthesize, try_except, lift, mbind, M_bind, Result_bind, mret, M_ret,
    Result_ret.
  destruct (truthy data) eqn:Ht; cbn [negb].
  - destruct H as [H|(d & -> & Hd)]; [discriminate|].
    unfold py_contains. rewrite Hd.
    rewrite bool_decide_eq_false_2 by (intros [? ?]; discriminate). reflexivity.
  - reflexivity.
Qed.

(** C8. A request whose JSON body is empty (falsy) or is an object
    without a "text" field is answered 400 with an "error" field, and
    the state is untouched: no synthesis is attempted.  A request with
    a text whose synthesis raises is answered 500 with the error's
    message in the "error" field; one whose synthesis succeeds is
    answered 200 with the audio bytes as audio/wav. *)
Theorem synthesize_route_validation (rt : Runtime) (s : State) :
  (∀ data,
     truthy data = false ∨ (∃ d, data = VDict d ∧ d !! "text" = None) →
     let r := handle rt (PostSynthesize (Ok data)) s in
     status (fst r) = 400 ∧
     json_field (fst r) "error" = Some (VStr "Missing 'text' field") ∧
     snd r = s) ∧
  (∀ d text rate,
     d !! "text" = Some text →
     clamp_rate (default (VFloat (FFinite 1)) (d !! "rate")) = Ok rate →
     let r := handle rt (PostSynthesize (Ok (VDict d))) s in
     match Engine.synthesize rt text rate s with
     | (Raise e, s') =>
       status (fst r) = 500 ∧
       json_field (fst r) "error" = Some (VStr (exn_str e)) ∧
       snd r = with_world (add_log (ERROR, LogSynthesisError e)) s'
     | (Ok audio_data, s') =>
       status (fst r) = 200 ∧
       (∃ headers, body (fst r) = DataBody audio_data "audio/wav" headers) ∧
       snd r = s'
     end).
Proof.
  split.
  - intros data H r. subst r. unfold handle. cbn [route].
    rewrite (synthesize_route_missing_text rt data s H). cbn [fst snd status].
    split; [done|]. split; [|done].
    unfold json_field, jsonify, error_body. cbn [body]. apply lookup_singleton_eq.
  - intros d text rate Ht Hr r. subst r. unfold handle. cbn [route].
    rewrite (synthesize_route_run rt d text rate s Ht Hr).
    destruct (Engine.synthesize rt text rate s) as [[audio|e] s']; cbn [fst snd status body].
    + split; [done|]. split; [eauto|done].
    + split; [done|]. split; [|done].
      unfold json_field, jsonify, error_body. cbn [body]. apply lookup_singleton_eq.
Qed.

(** A body that is neither empty nor a container: ["text" not in 5]
    raises, and the route answers 500. *)
Example synthesize_route_number_body :
  let r := handle good_runtime (PostSynthesize (Ok (VInt 5))) (boot ∅) in
  status (fst r) = 500 ∧
  json_field (fst r) "error" = Some (VStr "argument of type 'int' is not iterable").
Proof. split; vm_compute; reflexivity. Qed.

(** C9. For a request with a numeric rate, the rate handed to the
    engine (and so to the key and to the speech model) is the requested
    rate clamped into [0.5, 2.0]; the request is answered exactly as
    the one carrying the clamped rate, and never with 400.  A rate of
    10.0 is answered as 2.0, a rate of 0.1 as 0.5. *)
Theorem rate_is_clamped (rt : Runtime) :
  (∀ s d text rate,
     d !! "text" = Some text →
     d !! "rate" = Some rate →
     is_number rate = true →
     ∃ clamped,
       clamp_rate rate = Ok clamped ∧
       in_rate_range clamped ∧
       (∀ q, number_value rate = Some q → number_value clamped = Some (clamp_Q q)) ∧
       Route.synthesize rt (Ok (VDict d)) s =
       match Engine.synthesize rt text clamped s with
       | (Ok audio_data, s') =>
         (Ok {| status := 200;
                body := DataBody audio_data "audio/wav"
                          [("Content-Disposition", "inline; filename=speech.wav");
                           ("Cache-Control", "public, max-age=3600")] |}, s')
       | (Raise e, s') =>
         (Ok (jsonify (error_body (exn_str e)) 500),
          with_world (add_log (ERROR, LogSynthesisError e)) s')
       end ∧
       handle rt (PostSynthesize (Ok (VDict d))) s =
       handle rt (PostSynthesize (Ok (VDict (<["rate" := clamped]> d)))) s ∧
       status (fst (handle rt (PostSynthesize (Ok (VDict d))) s)) ≠ 400) ∧
  (∀ s text,
     handle rt (PostSynthesize (Ok (synth_body text (VFloat (FFinite (10 # 1)))))) s =
     handle rt (PostSynthesize (Ok (synth_body text (VFloat (FFinite (2 # 1)))))) s ∧
     handle rt (PostSynthesize (Ok (synth_body text (VFloat (FFinite (1 # 10)))))) s =
     handle rt (PostSynthesize (Ok (synth_body text (VFloat (FFinite (1 # 2)))))) s).
Proof.
  split.
  - intros s d text rate Ht Hr Hn.
    destruct (clamp_rate_spec rate Hn) as (clamped & Hc & Hidem & Hrange & Hval).
    exists clamped. split; [done|]. split; [done|]. split; [done|].
    assert (Hrun : Route.synthesize rt (Ok (VDict d)) s =
                   Route.synthesize rt (Ok (VDict (<["rate" := clamped]> d))) s).
    { rewrite (synthesize_route_run rt d text clamped s Ht) by (by rewrite Hr).
      rewrite (synthesize_route_run rt (<["rate" := clamped]> d) text clamped s); [done| |].
      - by rewrite lookup_insert_ne.
      - by rewrite lookup_insert_eq. }
    split; [apply synthesize_route_run; [done | by rewrite Hr]|].
    split; [unfold handle; cbn [route]; by rewrite Hrun|].
    unfold handle. cbn [route].
    rewrite (synthesize_route_run rt d text clamped s Ht) by (by rewrite Hr).
    destruct (Engine.synthesize rt text clamped s) as [[audio|e] s']; cbn; discriminate.
  - intros s text. unfold handle, synth_body. cbn [route].
    rewrite (synthesize_route_run rt _ (VStr text) (VFloat (FFinite (2 # 1))) s);
      [| by rewrite lookup_insert_ne | by rewrite lookup_insert_eq].
    rewrite (synthesize_route_run rt (<["rate" := VFloat (FFinite (2 # 1))]> _)
               (VStr text) (VFloat (FFinite (2 # 1))) s);
      [| by rewrite lookup_insert_ne | by rewrite lookup_insert_eq].
    rewrite (synthesize_route_run rt _ (VStr text) (VFloat (FFinite (1 # 2))) s);
      [| by rewrite lookup_insert_ne | by rewrite lookup_insert_eq].
    rewrite (synthesize_route_run rt (<["rate" := VFloat (FFinite (1 # 2))]> _)
               (VStr text) (VFloat (FFinite (1 # 2))) s);
      [| by rewrite lookup_insert_ne | by rewrite lookup_insert_eq].
    done.
Qed.

(** ** Profile and model (C10) *)

Lemma upload_without_model rt audio text s :
  model (tts_engine s) = None →
  voice_prompt (tts_engine s) = None →
  let r := handle rt (PostReference (Some audio) text) s in
  voice_prompt (tts_engine (snd r)) = None ∧
  (status (fst r) = 200 →
   files (world (snd r)) !! reference_audio (config s) = Some audio ∧
   json_field (fst r) "voice_clone_active" = Some (VBool false)).
Proof.
  intros Hm Hv. unfold handle. cbn [route]. unfold Route.upload_reference.
  munfold. msimpl.
  repeat (first
    [ progress msimpl
    | rewrite Hm
    | rewrite lookup_insert_eq
    | match goal with
      | |- context [match ?x with _ => _ end] =>
        lazymatch x with
        | context [match _ with _ => _ end] => fail
        | _ => destruct x eqn:?
        end
      end ]);
    simplify_eq; cbn [fst snd status]; (split; [done|]); try (intros; discriminate).
  all: intros _; split; [first [done | apply lookup_insert_eq] | try reflexivity].
  all: try (rewrite bool_decide_eq_true_2 in * by eauto; discriminate).
Qed.

Lemma model_by_load_refl s : model_by_load s s.
Proof. unfold model_by_load. auto. Qed.

Lemma model_by_load_trans s1 s2 s3 :
  model_by_load s1 s2 → model_by_load s2 s3 → model_by_load s1 s3.
Proof.
  unfold model_by_load. intros [H1 H2] [H3 H4]. split; [lia|].
  intros Hx. destruct (H4 Hx) as [Hy|Hy]; [|right; lia].
  destruct (H2 Hy); [by left | right; lia].
Qed.

Lemma with_log_model_by_load s r : model_by_load s (with_world (add_log r) s).
Proof. unfold model_by_load, load_attempts. cbn. auto. Qed.

Lemma initialize_model_by_load rt s : model_by_load s (snd (Engine.initialize rt s)).
Proof.
  unfold model_by_load, load_attempts. munfold.
  mcases; cbn [count_model_loads]; (split; [lia|]); intros Hx; auto; right; lia.
Qed.

Lemma synthesize_initialized_model_by_load rt text rate s :
  _initialized (tts_engine s) = true →
  model_by_load s (snd (Engine.synthesize rt text rate s)).
Proof.
  intros Hi. unfold Engine.synthesize. rewrite bind_run, lazy_initialize_done by done.
  unfold model_by_load, load_attempts. munfold.
  mcases; cbn [count_model_loads]; (split; [lia|]); intros Hx; msimpl; auto;
    destruct Hx; congruence.
Qed.

Lemma synthesize_model_by_load rt text rate s :
  model_by_load s (snd (Engine.synthesize rt text rate s)).
Proof.
  destruct (_initialized (tts_engine s)) eqn:Hi;
    [by apply synthesize_initialized_model_by_load|].
  pose proof (initialize_model_by_load rt s) as H.
  pose proof (lazy_initialize_eq rt s Hi) as Heq.
  destruct (Engine.initialize rt s) as [[[]|e] s1] eqn:Hinit; cbn [snd] in H.
  - rewrite (synthesize_after_init rt text rate s s1 Heq).
    eapply model_by_load_trans; [exact H|].
    apply synthesize_initialized_model_by_load. by eapply lazy_initialize_ok.
  - by rewrite (synthesize_init_failed rt text rate s e s1 Heq).
Qed.

Lemma synthesize_route_model_by_load rt get_json s :
  model_by_load s (snd (Route.synthesize rt get_json s)).
Proof.
  unfold Route.synthesize, try_except, logger, modify, lift, mbind, M_bind, mret, M_ret.
  msimpl.
  mcases; try apply model_by_load_refl; try apply with_log_model_by_load;
    match goal with
    | H : Engine.synthesize ?rt ?t ?r ?s = (_, ?s') |- _ =>
      let Ha := fresh in
      pose proof (synthesize_model_by_load rt t r s) as Ha; rewrite H in Ha; cbn [snd] in Ha
    end; eauto using model_by_load_trans, with_log_model_by_load.
Qed.

Lemma upload_reference_model_by_load rt audio text s :
  model_by_load s (snd (Route.upload_reference rt audio text s)).
Proof.
  unfold Route.upload_reference, model_by_load, load_attempts.
  munfold. mcases; cbn [count_model_loads]; (split; [lia|]); intros Hx; msimpl; auto;
    destruct Hx; congruence.
Qed.

Lemma step_model_by_load rt s ev : model_by_load s (step rt s ev).
Proof.
  destruct ev as [r|path]; cbn [step].
  - unfold handle. destruct r; cbn [route].
    + apply model_by_load_refl.
    + pose proof (synthesize_route_model_by_load rt get_json s).
      destruct (Route.synthesize rt get_json s) as [[]]; assumption.
    + apply model_by_load_refl.
    + pose proof (upload_reference_model_by_load rt audio text s).
      destruct (Route.upload_reference rt audio text s) as [[]]; assumption.
    + apply model_by_load_refl.
  - unfold model_by_load, load_attempts. cbn. auto.
Qed.

Lemma run_model_by_load rt evs s : model_by_load s (run rt evs s).
Proof.
  revert s. induction evs as [|ev evs IH]; intros s; cbn.
  - apply model_by_load_refl.
  - eapply model_by_load_trans; [apply step_model_by_load | apply IH].
Qed.

(** C10 (as the code has it).  In every state the server reaches, a
    voice profile is held only if a model is, and a model only if a
    load of the model was tried: none is held as long as no
    initialization was attempted, and none as long as every attempt
    failed before it reached the load.  While no model is held, an
    upload of a reference clip ends with no active profile; when the
    upload is answered 200 the clip was saved and the answer reports
    voice_clone_active false. *)
Theorem profile_only_with_model (rt : Runtime) (fs : gmap string bytes)
    (evs : list Event) :
  let s := run rt evs (boot fs) in
  profile_needs_model s ∧
  (init_attempts s = 0%nat ∨ load_attempts s = 0%nat → model (tts_engine s) = None) ∧
  (model (tts_engine s) = None →
   ∀ audio text,
     let r := handle rt (PostReference (Some audio) text) s in
     voice_prompt (tts_engine (snd r)) = None ∧
     (status (fst r) = 200 →
      files (world (snd r)) !! reference_audio (config s) = Some audio ∧
      json_field (fst r) "voice_clone_active" = Some (VBool false))).
Proof.
  intros s.
  pose proof (run_advances rt evs (boot fs)) as (_ & _ & _ & _ & _ & _ & _ & Hm & Hp).
  pose proof (run_model_by_load rt evs (boot fs)) as [_ Hl].
  fold s in Hm, Hp, Hl.
  assert (Hinv : profile_needs_model s).
  { apply Hp. intros [? ?]. discriminate. }
  split; [done|]. split.
  - intros Ha. destruct (model (tts_engine s)) eqn:Hmodel; [|done].
    destruct Ha as [Ha|Ha].
    + destruct Hm as [[? ?]|Hlt];
        [eauto | discriminate | rewrite Ha in Hlt; cbn in Hlt; lia].
    + destruct Hl as [[? ?]|Hlt];
        [eauto | discriminate | rewrite Ha in Hlt; cbn in Hlt; lia].
  - intros Hnone audio text.
    apply upload_without_model; [done|].
    destruct (voice_prompt (tts_engine s)) eqn:Hv; [|done].
    destruct Hinv as [? ?]; [eauto | congruence].
Qed.

(** C10 as stated fails.  Between an initialization that loaded the
    model and then failed and the next synthesis, the engine is not
    initialized, and never was, and holds a model: an upload then
    builds a profile and reports it active. *)
Lemma uninitialized_upload_builds_profile :
  let rt := flaky_mkdir_runtime in
  ¬ uninitialized_upload_is_inactive rt
      (run rt [Serve (PostSynthesize (Ok (synth_body "Hello world" rate_1)))] (boot ∅)).
Proof.
  intros rt H.
  assert (Hi : _initialized (tts_engine
                 (run rt [Serve (PostSynthesize (Ok (synth_body "Hello world" rate_1)))]
                    (boot ∅))) = false) by (vm_compute; reflexivity).
  destruct (H Hi "RIFFvoice" None) as [Hv _].
  vm_compute in Hv. discriminate Hv.
Qed.

(** The same state and upload, value by value. *)
Example upload_after_failed_initialization :
  let rt := flaky_mkdir_runtime in
  let s := run rt [Serve (PostSynthesize (Ok (synth_body "Hello world" rate_1)))] (boot ∅) in
  let r := handle rt (PostReference (Some "RIFFvoice") None) s in
  _initialized (tts_engine s) = false ∧
  model (tts_engine s) = Some (ModelObj 3) ∧
  init_attempts s = 1%nat ∧
  json_field (fst r) "voice_clone_active" = Some (VBool true).
Proof. repeat split; vm_compute; reflexivity. Qed.

(** ** The properties on the sample runtime *)

(** The second synthesis returns the first one's bytes although the
    speech model would by then answer with another array. *)
Lemma synthesize_idempotent_witness :
  let r1 := Engine.synthesize good_runtime hello rate_1 (boot ∅) in
  fst r1 = Ok "RIFF5" ∧
  Engine.synthesize good_runtime hello rate_1 (snd r1) = (Ok "RIFF5", snd r1) ∧
  generate good_runtime (clock (snd r1)) (ModelObj 3) hello rate_1
  = Ok (AudioArrayObj 7, 24000).
Proof.
  intros r1.
  assert (H1 : Engine.synthesize good_runtime hello rate_1 (boot ∅)
               = (Ok "RIFF5", snd r1)) by (vm_compute; reflexivity).
  destruct (synthesize_idempotent good_runtime hello rate_1 (boot ∅) (snd r1) "RIFF5" H1)
    as [H2 _].
  split; [vm_compute; reflexivity|]. split; [exact H2 | vm_compute; reflexivity].
Defined.

(** An upload changes the reference transcript and leaves the key of
    a request as it was. *)
Lemma cache_key_deterministic_witness :
  let cfg' :=
    config (step good_runtime (boot ∅)
              (Serve (PostReference (Some "RIFFvoice") (Some "A new transcript.")))) in
  reference_text cfg' = "A new transcript." ∧
  Engine._get_cache_key good_runtime cfg' hello rate_1 = hello_key.
Proof.
  intros cfg'.
  assert (H0 : model_name default_config = model_name cfg') by (vm_compute; reflexivity).
  destruct (cache_key_deterministic good_runtime default_config cfg' hello rate_1 H0)
    as [Heq _].
  split; [vm_compute; reflexivity|]. rewrite <- Heq. vm_compute. reflexivity.
Defined.

(** A cold engine over a warm cache directory: the bytes come from
    the file and enter the memory cache. *)
Lemma cache_lookup_tier_order_witness :
  let s := boot warm_files in
  let s1 := snd (Engine.lazy_initialize good_runtime s) in
  audio_cache (tts_engine s1) !! hello_key = None ∧
  files (world s1) !! hello_path = Some "RIFFcached" ∧
  Engine.synthesize good_runtime hello rate_1 s
  = (Ok "RIFFcached", snd (cache_store hello_key "RIFFcached" s1)).
Proof.
  intros s s1.
  assert (H1 : Engine.lazy_initialize good_runtime s = (Ok tt, s1))
    by (vm_compute; reflexivity).
  assert (H2 : sliceable hello = true) by reflexivity.
  pose proof (cache_lookup_tier_order good_runtime hello rate_1 s s1 H1 H2) as H.
  cbv zeta in H.
  assert (Hk : Engine._get_cache_key good_runtime (config s1) hello rate_1 = hello_key)
    by (vm_compute; reflexivity).
  rewrite Hk in H.
  assert (Hc : audio_cache (tts_engine s1) !! hello_key = None)
    by (vm_compute; reflexivity).
  rewrite Hc in H.
  match type of H with
  | match ?x with _ => _ end =>
    assert (Hf : x = Some "RIFFcached") by (vm_compute; reflexivity); rewrite Hf in H
  end.
  destruct H as [H _].
  split; [exact Hc|]. split; [vm_compute; reflexivity | exact H].
Defined.

(** The loader on a fresh engine, without a reference file and with
    one that no model can read. *)
Lemma profile_loader_absorbs_failures_witness :
  let missing := Engine._load_voice_prompt good_runtime (boot ∅) in
  let unusable :=
    Engine._load_voice_prompt good_runtime (boot {[ "./reference/gm-voice.wav" := "RIFF" ]}) in
  (fst missing = Ok tt ∧ tts_engine (snd missing) = new_engine) ∧
  (fst unusable = Ok tt ∧ voice_prompt (tts_engine (snd unusable)) = None).
Proof.
  intros missing unusable.
  destruct (profile_loader_absorbs_failures good_runtime (boot ∅)) as (H1 & H2 & _).
  destruct (profile_loader_absorbs_failures good_runtime
              (boot {[ "./reference/gm-voice.wav" := "RIFF" ]})) as (H3 & _ & H4).
  assert (Hm : files (world (boot ∅)) !! reference_audio (config (boot ∅)) = None)
    by (vm_compute; reflexivity).
  destruct (H2 Hm) as [He _].
  assert (Hf : is_Some (files (world (boot {[ "./reference/gm-voice.wav" := "RIFF" ]}))
                          !! reference_audio (config (boot {[ "./reference/gm-voice.wav" := "RIFF" ]}))))
    by (vm_compute; eauto).
  destruct (H4 Hf _ (or_introl (conj eq_refl eq_refl))) as [Hv _].
  split; [split; [exact H1 | exact He] | split; [exact H3 | exact Hv]].
Defined.

(** The loader at the state [stale_profile_trace] leads to, and the
    next request's initialization and synthesis. *)
Lemma missing_reference_witness :
  let rt := flaky_mkdir_runtime in
  let s := run rt stale_profile_trace (boot ∅) in
  let s1 := snd (Engine.initialize rt s) in
  (files (world s) !! reference_audio (config s) = None ∧
   voice_prompt (tts_engine s) = Some (VoicePromptObj 7)) ∧
  (fst (Engine._load_voice_prompt rt s) = Ok tt ∧
   has_voice_clone (tts_engine (snd (Engine._load_voice_prompt rt s))) = true) ∧
  json_field (fst (handle rt GetHealth s1)) "voice_clone_active" = Some (VBool true) ∧
  ∃ later,
    calls (world (snd (Engine.synthesize rt hello rate_1 s)))
    = (later ++ CallGenerateVoiceClone (ModelObj 11) hello (VoicePromptObj 7) rate_1
             :: calls (world s1))%list.
Proof.
  intros rt s s1.
  assert (Hf : files (world s) !! reference_audio (config s) = None)
    by (vm_compute; reflexivity).
  assert (Hv : voice_prompt (tts_engine s) = Some (VoicePromptObj 7))
    by (vm_compute; reflexivity).
  assert (Hi : _initialized (tts_engine s) = false) by (vm_compute; reflexivity).
  assert (Hinit : Engine.initialize rt s = (Ok tt, s1)) by (vm_compute; reflexivity).
  assert (Hm : model (tts_engine s1) = Some (ModelObj 11)) by (vm_compute; reflexivity).
  assert (Hc : audio_cache (tts_engine s1)
                 !! Engine._get_cache_key rt (config s1) hello rate_1 = None)
    by (vm_compute; reflexivity).
  assert (Hfile : files (world s1)
                    !! cache_file (config s1)
                         (Engine._get_cache_key rt (config s1) hello rate_1) = None)
    by (vm_compute; reflexivity).
  destruct (missing_reference_keeps_cloned_voice rt s (VoicePromptObj 7) Hf Hv)
    as [(Hok & _ & _ & _ & Hclone) Hnext].
  destruct (Hnext s1 hello rate_1 (ModelObj 11) Hi Hinit) as (_ & _ & Hhealth & Hsyn).
  split; [split; [exact Hf | exact Hv]|]. split; [split; [exact Hok | exact Hclone]|].
  split; [exact Hhealth|]. exact (Hsyn eq_refl Hm Hc Hfile).
Defined.


(** The body [{}]. *)
Lemma synthesize_route_validation_witness :
  let r := handle good_runtime (PostSynthesize (Ok (VDict ∅))) (boot ∅) in
  status (fst r) = 400 ∧
  json_field (fst r) "error" = Some (VStr "Missing 'text' field") ∧
  snd r = boot ∅.
Proof.
  intros r.
  destruct (synthesize_route_validation good_runtime (boot ∅)) as [H _].
  apply (H (VDict ∅)). left. reflexivity.
Defined.

(** A rate of 10.0 on a fresh server. *)
Lemma rate_is_clamped_witness :
  clamp_rate (VFloat (FFinite (10 # 1))) = Ok (VFloat (FFinite (2 # 1))) ∧
  handle good_runtime
    (PostSynthesize (Ok (synth_body "Hello world" (VFloat (FFinite (10 # 1)))))) (boot ∅)
  = handle good_runtime
      (PostSynthesize (Ok (synth_body "Hello world" (VFloat (FFinite (2 # 1)))))) (boot ∅).
Proof.
  destruct (rate_is_clamped good_runtime) as [Hgen _].
  assert (Ht : (<["rate" := VFloat (FFinite (10 # 1))]> {[ "text" := hello ]}
                : gmap string pyval) !! "text" = Some hello) by (vm_compute; reflexivity).
  assert (Hr : (<["rate" := VFloat (FFinite (10 # 1))]> {[ "text" := hello ]}
                : gmap string pyval) !! "rate" = Some (VFloat (FFinite (10 # 1))))
    by (vm_compute; reflexivity).
  destruct (Hgen (boot ∅) _ hello _ Ht Hr eq_refl) as (clamped & Hc & _ & _ & _ & Hsame & _).
  assert (Hv : clamp_rate (VFloat (FFinite (10 # 1))) = Ok (VFloat (FFinite (2 # 1))))
    by reflexivity.
  rewrite Hv in Hc. injection Hc as <-.
  split; [exact Hv|]. unfold synth_body. fold hello. rewrite Hsame.
  rewrite insert_insert_eq. reflexivity.
Defined.

(** An upload before any synthesis. *)
(** An upload after a request whose initialization failed at the
    import of [qwen_tts]: one attempt, no load, no model. *)
Lemma profile_only_with_model_witness :
  let rt := late_install_runtime in
  let s := run rt [Serve (PostSynthesize (Ok (synth_body "Hello world" rate_1)))] (boot ∅) in
  let r := handle rt (PostReference (Some "RIFFvoice") None) s in
  (init_attempts s = 1%nat ∧ load_attempts s = 0%nat ∧ model (tts_engine s) = None) ∧
  files (world (snd r)) !! "./reference/gm-voice.wav" = Some "RIFFvoice" ∧
  voice_prompt (tts_engine (snd r)) = None ∧
  json_field (fst r) "voice_clone_active" = Some (VBool false).
Proof.
  intros rt s r.
  destruct (profile_only_with_model rt ∅
              [Serve (PostSynthesize (Ok (synth_body "Hello world" rate_1)))])
    as (_ & Hnone & H).
  assert (Ha : init_attempts s = 1%nat) by (vm_compute; reflexivity).
  assert (Hl : load_attempts s = 0%nat) by (vm_compute; reflexivity).
  pose proof (Hnone (or_intror Hl)) as Hm.
  destruct (H Hm "RIFFvoice" None) as [Hv Hok]. fold s in Hv, Hok. fold r in Hv, Hok.
  assert (Hs : status (fst r) = 200) by (vm_compute; reflexivity).
  destruct (Hok Hs) as [Hf Hj].
  split; [split; [exact Ha | split; [exact Hl | exact Hm]]|].
  split; [exact Hf|]. split; [exact Hv | exact Hj].
Defined.

(** * Further properties *)

(** X1. The three GET routes answer 200 and leave the state as it is.
    /health and /status report the same [initialized] and the same
    [voice_clone_active], which is true exactly when the engine is
    initialized and holds a profile; /voices lists one voice whose
    status is "active" in exactly that case; /status reports whether
    the reference file exists. *)
Theorem status_routes_agree (rt : Runtime) (s : State) :
  let e := tts_engine s in
  let active := is_initialized e && has_voice_clone e in
  let health := fst (handle rt GetHealth s) in
  let detail := fst (handle rt GetStatus s) in
  (∀ r, r = GetHealth ∨ r = GetVoices ∨ r = GetStatus →
        snd (handle rt r s) = s ∧ status (fst (handle rt r s)) = 200) ∧
  json_field health "initialized" = Some (VBool (_initialized e)) ∧
  json_field detail "initialized" = Some (VBool (_initialized e)) ∧
  json_field health "voice_clone_active" = Some (VBool active) ∧
  json_field detail "voice_clone_active" = Some (VBool active) ∧
  json_field health "model" = Some (VStr (model_name (config s))) ∧
  json_field detail "model" = Some (VStr (model_name (config s))) ∧
  json_field detail "reference_audio_exists"
  = Some (VBool (bool_decide (is_Some (files (world s) !! reference_audio (config s))))) ∧
  ∃ voice,
    body (fst (handle rt GetVoices s)) = JsonBody (VList [VDict voice]) ∧
    voice !! "id" = Some (VStr "gm-narrator") ∧
    voice !! "status" = Some (VStr (if active then "active" else "default")).
Proof.
  intros e active health detail. subst e active health detail.
  split; [intros r [->|[->| ->]]; split; reflexivity|].
  unfold handle, is_initialized. cbn [route].
  unfold Route.health_check, Route.get_status, Route.list_voices, is_initialized.
  munfold. msimpl. unfold json_field, jsonify. cbn [fst body].
  destruct (_initialized (tts_engine s)), (has_voice_clone (tts_engine s));
    cbn [andb]; (repeat split; try reflexivity);
    eexists; (split; [reflexivity|]); split; reflexivity.
Qed.

(** X2. No exception leaves the /synthesize route, whatever the body and
    the runtime: the answer is 200 with audio/wav bytes, or 400 or 500
    with an "error" message. *)
Theorem synthesize_route_never_raises (rt : Runtime) (get_json : Result pyval) (s : State) :
  ∃ resp,
    fst (Route.synthesize rt get_json s) = Ok resp ∧
    fst (handle rt (PostSynthesize get_json) s) = resp ∧
    ((status resp = 200 ∧
      ∃ audio_data headers, body resp = DataBody audio_data "audio/wav" headers) ∨
     ((status resp = 400 ∨ status resp = 500) ∧
      ∃ msg, json_field resp "error" = Some (VStr msg))).
Proof.
  unfold handle. cbn [route].
  unfold Route.synthesize, try_except, logger, modify, lift, mbind, M_bind, mret, M_ret.
  msimpl.
  mcases; eexists; (split; [reflexivity|]); (split; [reflexivity|]);
    cbn [status body];
    first [ left; split; [reflexivity | eauto]
          | right; split; [auto|]; eexists; unfold json_field, jsonify, error_body;
            cbn [body]; apply lookup_singleton_eq ].
Qed.

(** X3. A rate that is no number (null, a string, a list, an object)
    makes [min(2.0, rate)] raise: the answer is 500 with the TypeError's
    message, and the engine is not touched, not even initialized. *)
Theorem non_numeric_rate_is_an_error (rt : Runtime) (s : State)
    (d : gmap string pyval) (text rate : pyval) :
  d !! "text" = Some text →
  d !! "rate" = Some rate →
  is_number rate = false →
  handle rt (PostSynthesize (Ok (VDict d))) s =
  (jsonify (error_body (exn_str (not_comparable "<" rate))) 500,
   with_world (add_log (ERROR, LogSynthesisError (not_comparable "<" rate))) s).
Proof.
  intros Ht Hr Hn.
  assert (Hne : d ≠ ∅) by (intros ->; by rewrite lookup_empty in Ht).
  assert (Hc : clamp_rate rate = Raise (not_comparable "<" rate)).
  { destruct rate; try discriminate; reflexivity. }
  unfold handle. cbn [route].
  unfold Route.synthesize, try_except, lift, mbind, M_bind, Result_bind, mret, M_ret,
    Result_ret, truthy, py_contains, py_getitem, py_get.
  rewrite (bool_decide_eq_false_2 (d = ∅)) by done.
  rewrite Ht. rewrite bool_decide_eq_true_2 by eauto. cbn [negb].
  rewrite Hr. cbn [from_option id]. rewrite Hc. reflexivity.
Qed.

(** X4. A body without a rate is answered as the same body with rate
    1.0: the engine is called with rate 1.0. *)
Theorem rate_defaults_to_one (rt : Runtime) (s : State) (d : gmap string pyval)
    (text : pyval) :
  d !! "text" = Some text →
  d !! "rate" = None →
  handle rt (PostSynthesize (Ok (VDict d))) s =
  handle rt (PostSynthesize (Ok (VDict (<["rate" := VFloat (FFinite 1)]> d)))) s ∧
  Route.synthesize rt (Ok (VDict d)) s =
  match Engine.synthesize rt text (VFloat (FFinite 1)) s with
  | (Ok audio_data, s') =>
    (Ok {| status := 200;
           body := DataBody audio_data "audio/wav"
                     [("Content-Disposition", "inline; filename=speech.wav");
                      ("Cache-Control", "public, max-age=3600")] |}, s')
  | (Raise e, s') =>
    (Ok (jsonify (error_body (exn_str e)) 500),
     with_world (add_log (ERROR, LogSynthesisError e)) s')
  end.
Proof.
  intros Ht Hr.
  assert (H1 : Route.synthesize rt (Ok (VDict d)) s = _)
    by (apply (synthesize_route_run rt d text (VFloat (FFinite 1)) s Ht);
        by rewrite Hr).
  split; [|exact H1].
  unfold handle. cbn [route]. rewrite H1.
  rewrite (synthesize_route_run rt (<["rate" := VFloat (FFinite 1)]> d) text
             (VFloat (FFinite 1)) s);
    [done | by rewrite lookup_insert_ne | by rewrite lookup_insert_eq].
Qed.
(** X5. A body that is no JSON object never reaches the engine.  It is
    answered 400 when it is falsy or does not contain "text" (as an
    element of a list, as a substring of a string), and 500 with a
    TypeError's message otherwise; the state gains the error's log
    record at most. *)
Theorem only_objects_reach_the_engine (rt : Runtime) (data : pyval) (s : State) :
  (∀ d, data ≠ VDict d) →
  let r := handle rt (PostSynthesize (Ok data)) s in
  (status (fst r) = 400 ∧ snd r = s ∧
   (truthy data = false ∨ py_contains "text" data = Ok false)) ∨
  (status (fst r) = 500 ∧
   ∃ msg, json_field (fst r) "error" = Some (VStr msg) ∧
          snd r = with_world (add_log (ERROR, LogSynthesisError (Exn TypeError msg))) s).
Proof.
  intros Hd. unfold handle. cbn [route].
  unfold Route.synthesize, try_except, logger, modify, lift, mbind, M_bind, Result_bind,
    mret, M_ret, Result_ret.
  msimpl.
  destruct (truthy data) eqn:Ht; cbn [negb]; [|left; auto].
  destruct data as [|b|z|f|str|l|d]; try discriminate; cbn [py_contains py_getitem];
    try (right; split; [reflexivity|]; eexists; split;
         [unfold json_field, jsonify, error_body; cbn [body fst];
          apply lookup_singleton_eq | reflexivity]).
  - destruct (is_substring "text" str) eqn:Hsub; cbn [negb].
    + right. split; [reflexivity|]. eexists. split;
        [unfold json_field, jsonify, error_body; cbn [body fst];
         apply lookup_singleton_eq | reflexivity].
    + left. auto.
  - destruct (existsb (is_str "text") l) eqn:Hsub; cbn [negb].
    + right. split; [reflexivity|]. eexists. split;
        [unfold json_field, jsonify, error_body; cbn [body fst];
         apply lookup_singleton_eq | reflexivity].
    + left. auto.
  - by destruct (Hd d).
Qed.

(** X6. /reference without an audio file is answered 400 and changes
    nothing.  With a file, an exception leaves the route only when
    creating the directory or saving the file fails.  Flask then
    answers with its 500 page and logs the exception; that record is
    all the log gains, the configuration and the engine are as before,
    and the files are too unless the save failed after it had opened
    the file. *)
Theorem upload_reference_failures (rt : Runtime) (s : State) (text : option string) :
  handle rt (PostReference None text) s
  = (jsonify (error_body "No audio file provided") 400, s) ∧
  ∀ audio e s1,
    route rt (PostReference (Some audio) text) s = (Raise e, s1) →
    let r := handle rt (PostReference (Some audio) text) s in
    fst r = {| status := 500; body := ErrorPage |} ∧
    config (snd r) = config s ∧
    tts_engine (snd r) = tts_engine s ∧
    logs (world (snd r)) = (ERROR, LogUnhandled "/reference" "POST" e) :: logs (world s) ∧
    (mkdir rt (clock s) (path_parent (reference_audio (config s))) = Raise e ∧
     files (world (snd r)) = files (world s) ∨
     file_save rt (S (clock s)) (reference_audio (config s)) audio = OpenFails e ∧
     files (world (snd r)) = files (world s) ∨
     ∃ written,
       file_save rt (S (clock s)) (reference_audio (config s)) audio
       = WriteFails e written ∧
       files (world (snd r))
       = <[reference_audio (config s) := written]> (files (world s))).
Proof.
  split; [reflexivity|].
  intros audio e s1. unfold handle. cbn [route request_path request_method].
  unfold Route.upload_reference.
  munfold. unfold clock. msimpl. cbn [length].
  mcases; intros [= <- <-]; msimpl; (split; [reflexivity|]);
    destruct s as [c en w]; destruct w; cbn in *; eauto 10.
Qed.

(** X7. An upload, whatever its outcome, changes at most the
    reference transcript, the active profile and the reference file:
    the model, the memory cache, the initialized flag, every other
    field of the configuration and every other file stay as they
    were. *)
Theorem upload_reference_frame (rt : Runtime) (audio : option bytes)
    (text : option string) (s : State) :
  let s' := snd (handle rt (PostReference audio text) s) in
  tts_engine s' =
    {| model := model (tts_engine s);
       voice_prompt := voice_prompt (tts_engine s');
       audio_cache := audio_cache (tts_engine s);
       _initialized := _initialized (tts_engine s);
       _download_progress := _download_progress (tts_engine s) |} ∧
  config s' =
    {| host := host (config s); port := port (config s);
       model_name := model_name (config s); cache_dir := cache_dir (config s);
       reference_audio := reference_audio (config s);
       reference_text := reference_text (config s');
       device := device (config s) |} ∧
  ∀ path, path ≠ reference_audio (config s) →
          files (world s') !! path = files (world s) !! path.
Proof.
  unfold handle. cbn [route]. unfold Route.upload_reference.
  munfold. msimpl.
  mcases; destruct s as [c en w]; destruct c, en, w; cbn in *; simplify_eq;
    (repeat split; try reflexivity);
    intros path Hp; rewrite ?lookup_insert_ne by congruence; reflexivity.
Qed.

(** X8. With a model loaded, a directory that can be created, a save
    that succeeds and a model that builds a profile from the saved clip
    and the transcript of the form (the old transcript when the form
    has none), the upload is answered 200 with voice_clone_active true,
    the profile is the one built, the clip and the transcript are
    stored; /health then reports the profile active exactly when the
    engine is initialized. *)
Theorem upload_reference_activates (rt : Runtime) (s : State) (audio : bytes)
    (text : option string) (m : Model) (vp : VoicePrompt) :
  let ref := reference_audio (config s) in
  let transcript := default (reference_text (config s)) text in
  model (tts_engine s) = Some m →
  mkdir rt (clock s) (path_parent ref) = Ok tt →
  file_save rt (S (clock s)) ref audio = WriteOk →
  create_voice_clone_prompt rt (S (S (clock s))) m ref transcript = Ok vp →
  let r := handle rt (PostReference (Some audio) text) s in
  status (fst r) = 200 ∧
  json_field (fst r) "voice_clone_active" = Some (VBool true) ∧
  voice_prompt (tts_engine (snd r)) = Some vp ∧
  files (world (snd r)) !! ref = Some audio ∧
  reference_text (config (snd r)) = transcript ∧
  json_field (fst (handle rt GetHealth (snd r))) "voice_clone_active"
  = Some (VBool (_initialized (tts_engine s))).
Proof.
  intros ref transcript Hm Hmk Hsave Hvp. subst ref transcript.
  unfold handle. cbn [route]. unfold Route.upload_reference, Route.health_check.
  munfold. unfold clock in *. msimpl. rewrite Hmk. msimpl. cbn [length].
  rewrite Hsave. msimpl. rewrite lookup_insert_eq.
  rewrite bool_decide_eq_true_2 by eauto. msimpl. rewrite Hm. msimpl.
  cbn [length]. rewrite Hvp. msimpl. cbn [fst snd status].
  unfold json_field, jsonify, is_initialized, has_voice_clone. cbn [body]. msimpl.
  repeat split; try reflexivity.
  - apply lookup_insert_eq.
  - destruct (_initialized (tts_engine s)); reflexivity.
Qed.

(** X9. A failed initialization raises the error it met, leaves the
    engine uninitialized, and leaves the profile, the memory cache, the
    configuration and the files as they were.  An ImportError is logged
    with the hint to install the package, any other error as a failed
    initialization.  The model is as before unless the failure came
    after the model was loaded, at the creation of the cache
    directory. *)
Theorem initialize_failure_report (rt : Runtime) (s s' : State) (e : exn) :
  Engine.initialize rt s = (Raise e, s') →
  _initialized (tts_engine s) = false ∧
  _initialized (tts_engine s') = false ∧
  voice_prompt (tts_engine s') = voice_prompt (tts_engine s) ∧
  audio_cache (tts_engine s') = audio_cache (tts_engine s) ∧
  config s' = config s ∧
  files (world s') = files (world s) ∧
  (if is_import_error e
   then ∃ earlier, logs (world s')
                   = (ERROR, LogPleaseInstall) :: (ERROR, LogImportFailed e) :: earlier
   else ∃ earlier, logs (world s') = (ERROR, LogInitFailed e) :: earlier) ∧
  (model (tts_engine s') = model (tts_engine s) ∨
   ∃ m dev earlier,
     model (tts_engine s') = Some m ∧
     calls (world s')
     = CallMkdir (cache_dir (config s))
       :: CallFromPretrained (model_name (config s)) dev :: earlier).
Proof.
  munfold. msimpl.
  mcases; intros [= <- <-]; msimpl; try congruence;
    repeat (split; [first [reflexivity | eauto]|]);
    first [ by left | right; eexists _, _, _; split; reflexivity ].
Qed.

(** X10. A successful initialization of an uninitialized engine makes
    its calls in this order: the import of qwen_tts; for device "auto"
    the import of torch and the CUDA probe, whose answer chooses "cuda"
    or "cpu", and for any other device nothing; the loading of the
    configured model on that device; the creation of the cache
    directory; at most one profile build.  It ends initialized, with
    the model held. *)
Theorem initialize_protocol (rt : Runtime) (s s' : State) :
  _initialized (tts_engine s) = false →
  Engine.initialize rt s = (Ok tt, s') →
  ∃ m dev probe loader,
    model (tts_engine s') = Some m ∧
    _initialized (tts_engine s') = true ∧
    calls (world s')
    = (loader ++ CallMkdir (cache_dir (config s))
         :: CallFromPretrained (model_name (config s)) dev
         :: probe ++ CallImportQwenTTS :: calls (world s))%list ∧
    (if String.eqb (device (config s)) "auto"
     then probe = [CallCudaIsAvailable; CallImportTorch] ∧
          ∃ cuda, cuda_is_available rt (S (S (clock s))) = Ok cuda ∧
                  dev = if cuda : bool then "cuda" else "cpu"
     else probe = [] ∧ dev = device (config s)) ∧
    (loader = [] ∨
     loader = [CallCreateVoiceClonePrompt m (reference_audio (config s))
                 (reference_text (config s))]).
Proof.
  intros Hi. munfold. unfold clock. rewrite Hi. msimpl.
  destruct (String.eqb (device (config s)) "auto") eqn:Hd;
    mcases; cbn [length] in *; intros [= <-]; msimpl.
  all: try (eexists _, _, [CallCudaIsAvailable; CallImportTorch], [];
            repeat (split; [first [reflexivity | eauto]|]); eauto; fail).
  all: try (eexists _, _, [CallCudaIsAvailable; CallImportTorch], [_];
            repeat (split; [first [reflexivity | eauto]|]); eauto; fail).
  all: try (eexists _, _, [], [];
            repeat (split; [first [reflexivity | eauto]|]); eauto; fail).
  all: try (eexists _, _, [], [_];
            repeat (split; [first [reflexivity | eauto]|]); eauto; fail).
Qed.

(** X14. After the first initialization of a fresh process the profile
    is active exactly when the reference clip exists and the model
    builds a profile from it; /health reports initialized true and
    voice_clone_active accordingly. *)
Theorem first_initialization_profile (rt : Runtime) (fs : gmap string bytes)
    (s1 : State) :
  Engine.initialize rt (boot fs) = (Ok tt, s1) →
  ∃ m,
    model (tts_engine s1) = Some m ∧
    voice_prompt (tts_engine s1) =
      match fs !! "./reference/gm-voice.wav" with
      | None => None
      | Some _ =>
        match create_voice_clone_prompt rt 5 m "./reference/gm-voice.wav"
                "The shadows grow long as ancient evil stirs in the darkness." with
        | Ok vp => Some vp
        | Raise _ => None
        end
      end ∧
    json_field (fst (handle rt GetHealth s1)) "initialized" = Some (VBool true) ∧
    json_field (fst (handle rt GetHealth s1)) "voice_clone_active"
    = Some (VBool (has_voice_clone (tts_engine s1))).
Proof.
  unfold handle. cbn [route].
  unfold Route.health_check, boot, is_initialized, has_voice_clone, new_engine,
    default_config.
  munfold. unfold clock. msimpl. cbn [String.eqb Ascii.eqb Bool.eqb]. msimpl.
  mcases; intros [= <-]; msimpl; cbn [length] in *; try discriminate;
    try congruence;
    eexists; (split; [reflexivity|]);
    repeat match goal with
           | H : _ !! _ = None |- _ => rewrite H; clear H
           | H : _ !! _ = Some _ |- _ => rewrite H; clear H
           | H : create_voice_clone_prompt _ _ _ _ _ = _ |- _ => rewrite H; clear H
           end;
    try (exfalso;
         match goal with
         | H : negb (bool_decide (is_Some ?o)) = _ |- _ =>
           first [ rewrite bool_decide_eq_true_2 in H by eauto
                 | rewrite bool_decide_eq_false_2 in H by (intros [? ?]; congruence) ];
           discriminate H
         end);
    repeat split; try reflexivity; congruence.
Qed.

Lemma synthesize_initialized_has_model rt text rate s :
  initialized_has_model s →
  initialized_has_model (snd (Engine.synthesize rt text rate s)).
Proof.
  unfold initialized_has_model. intros Hinv.
  destruct (_initialized (tts_engine s)) eqn:Hi.
  - pose proof (synthesize_initialized_effect rt text rate s Hi) as (_ & Hm & _).
    cbv zeta in Hm. rewrite Hm. auto.
  - pose proof (initialize_effect rt s) as (_ & _ & _ & _ & _ & _ & Hf).
    destruct (Hf Hi) as (_ & _ & Hr). clear Hf.
    pose proof (lazy_initialize_eq rt s Hi) as Hl.
    destruct (Engine.initialize rt s) as [[[]|e] s1] eqn:Hinit; cbn [fst snd] in *.
    + destruct Hr as [Hi1 Hm1].
      rewrite (synthesize_after_init rt text rate s s1) by done.
      pose proof (synthesize_initialized_effect rt text rate s1 Hi1) as (_ & Hm & _).
      cbv zeta in Hm. rewrite Hm. auto.
    + rewrite (synthesize_init_failed rt text rate s e s1) by done.
      cbn [snd]. congruence.
Qed.

Lemma step_initialized_has_model rt s ev :
  initialized_has_model s → initialized_has_model (step rt s ev).
Proof.
  intros Hinv. destruct ev as [r|path]; cbn [step]; [|exact Hinv].
  unfold handle. destruct r; cbn [route]; try exact Hinv.
  - assert (H : initialized_has_model (snd (Route.synthesize rt get_json s))).
    { unfold Route.synthesize, try_except, logger, modify, lift, mbind, M_bind, mret,
        M_ret. msimpl.
      mcases; try exact Hinv;
        try match goal with
        | H : Engine.synthesize ?rt ?t ?r ?s = (_, ?s') |- _ =>
          let Ha := fresh in
          pose proof (synthesize_initialized_has_model rt t r s Hinv) as Ha;
          rewrite H in Ha
        end;
        unfold initialized_has_model in *; msimpl; auto. }
    destruct (Route.synthesize rt get_json s) as [[]]; exact H.
  - assert (H : initialized_has_model (snd (Route.upload_reference rt audio text s))).
    { revert Hinv. unfold initialized_has_model, Route.upload_reference.
      munfold. mcases; auto; intros H1 H2; specialize (H1 H2); congruence. }
    destruct (Route.upload_reference rt audio text s) as [[]]; exact H.
Qed.

Lemma run_initialized_has_model rt evs s :
  initialized_has_model s → initialized_has_model (run rt evs s).
Proof.
  revert s. induction evs as [|ev evs IH]; intros s H; cbn; [exact H|].
  apply IH. by apply step_initialized_has_model.
Qed.

(** X11. In every state the server reaches from a fresh process, an
    initialized engine holds a model; a synthesis that misses both
    cache tiers then does call the speech model. *)
Theorem initialized_engine_has_model (rt : Runtime) (fs : gmap string bytes)
    (evs : list Event) :
  let s := run rt evs (boot fs) in
  _initialized (tts_engine s) = true →
  ∃ m, model (tts_engine s) = Some m ∧
       ∀ text rate,
         sliceable text = true →
         let key := Engine._get_cache_key rt (config s) text rate in
         audio_cache (tts_engine s) !! key = None →
         files (world s) !! cache_file (config s) key = None →
         ∃ later,
           calls (world (snd (Engine.synthesize rt text rate s)))
           = (later ++ speech_call m (voice_prompt (tts_engine s)) text rate
                    :: calls (world s))%list.
Proof.
  intros s Hi.
  assert (Hinv : initialized_has_model s).
  { apply run_initialized_has_model. intros H. discriminate H. }
  destruct (Hinv Hi) as [m Hm]. exists m. split; [done|].
  intros text rate Hs key Hc Hf.
  by destruct (synthesize_miss rt text rate s m Hi Hs Hc Hf Hm) as [_ ?].
Qed.

(** X12. As long as no two requests overlap, no request and no removal
    of a file drops or changes an entry of the memory cache. *)
Theorem memory_cache_never_evicts (rt : Runtime) (evs : list Event) (s : State)
    (key : string) (audio : bytes) :
  audio_cache (tts_engine s) !! key = Some audio →
  audio_cache (tts_engine (run rt evs s)) !! key = Some audio.
Proof.
  intros H. by apply (run_advances rt evs s).
Qed.

Lemma synthesize_initialized_files rt text rate s path d :
  _initialized (tts_engine s) = true →
  files (world s) !! path = Some d →
  files (world (snd (Engine.synthesize rt text rate s))) !! path = Some d.
Proof.
  intros Hi Hp. unfold Engine.synthesize. rewrite bind_run, lazy_initialize_done by done.
  munfold. mcases; try done;
    match goal with
    | Hb : bool_decide (is_Some ?o) = false |- _ =>
      apply bool_decide_eq_false_1 in Hb; rewrite <- eq_None_not_Some in Hb
    end;
    (rewrite lookup_insert_ne; [done | congruence]).
Qed.

Lemma synthesize_files rt text rate s path d :
  files (world s) !! path = Some d →
  files (world (snd (Engine.synthesize rt text rate s))) !! path = Some d.
Proof.
  intros Hp. destruct (_initialized (tts_engine s)) eqn:Hi.
  - by apply synthesize_initialized_files.
  - pose proof (initialize_effect rt s) as (_ & _ & Hfiles & _ & _ & _ & Hf).
    destruct (Hf Hi) as (_ & _ & Hr). clear Hf.
    pose proof (lazy_initialize_eq rt s Hi) as Hl.
    destruct (Engine.initialize rt s) as [[[]|e] s1] eqn:Hinit; cbn [fst snd] in *.
    + destruct Hr as [Hi1 _].
      rewrite (synthesize_after_init rt text rate s s1) by done.
      apply synthesize_initialized_files; [done|]. by rewrite Hfiles.
    + rewrite (synthesize_init_failed rt text rate s e s1) by done.
      cbn [snd]. by rewrite Hfiles.
Qed.

Lemma handle_keeps_files rt r s path d :
  path ≠ reference_audio (config s) →
  files (world s) !! path = Some d →
  files (world (snd (handle rt r s))) !! path = Some d.
Proof.
  intros Hne Hp. unfold handle. destruct r; cbn [route]; try exact Hp.
  - assert (H : files (world (snd (Route.synthesize rt get_json s))) !! path = Some d).
    { unfold Route.synthesize, try_except, logger, modify, lift, mbind, M_bind, mret,
        M_ret. msimpl.
      mcases; try exact Hp;
        try match goal with
        | H : Engine.synthesize ?rt ?t ?r ?s = (_, ?s') |- _ =>
          let Ha := fresh in
          pose proof (synthesize_files rt t r s path d Hp) as Ha;
          rewrite H in Ha
        end;
        msimpl; auto. }
    destruct (Route.synthesize rt get_json s) as [[]]; exact H.
  - assert (H : files (world (snd (Route.upload_reference rt audio text s))) !! path
                = Some d).
    { unfold Route.upload_reference. munfold.
      mcases; rewrite ?lookup_insert_ne by congruence; done. }
    destruct (Route.upload_reference rt audio text s) as [[]]; exact H.
Qed.

(** X13. As long as no two requests overlap, requests never delete or
    overwrite a file other than the reference clip: a cache file, once
    written, keeps its bytes. *)
Theorem requests_keep_files (rt : Runtime) (requests : list Request) (s : State)
    (path : string) (data : bytes) :
  path ≠ reference_audio (config s) →
  files (world s) !! path = Some data →
  files (world (run rt (Serve <$> requests) s)) !! path = Some data.
Proof.
  revert s. induction requests as [|r rs IH]; intros s Hne Hp; cbn; [done|].
  apply IH.
  - pose proof (step_advances rt s (Serve r)) as (_ & _ & Href & _).
    cbn [step] in Href. by rewrite Href.
  - by apply handle_keeps_files.
Qed.

(** X15. On an initialized engine a synthesis that raises leaves the
    configuration, the model, the profile and the flag as they were.
    Either it raised before it changed anything (so for a text that
    cannot be sliced), or the failure was logged as a failed synthesis:
    then the memory cache and the files are as they were too, unless
    it ended with the write of the cache file. *)
Theorem failed_synthesis_effects (rt : Runtime) (text rate : pyval) (s s' : State)
    (e : exn) :
  _initialized (tts_engine s) = true →
  Engine.synthesize rt text rate s = (Raise e, s') →
  config s' = config s ∧
  model (tts_engine s') = model (tts_engine s) ∧
  voice_prompt (tts_engine s') = voice_prompt (tts_engine s) ∧
  _initialized (tts_engine s') = true ∧
  (sliceable text = false → s' = s) ∧
  (s' = s ∨
   (audio_cache (tts_engine s') = audio_cache (tts_engine s) ∧
    files (world s') = files (world s) ∧
    ∃ earlier, logs (world s') = (ERROR, LogSynthesisFailed e) :: earlier) ∨
   (∃ path data c earlier,
      calls (world s') = CallOpenWrite path data :: c :: calls (world s) ∧
      logs (world s') = (ERROR, LogSynthesisFailed e) :: earlier)).
Proof.
  intros Hi. unfold Engine.synthesize. rewrite bind_run, lazy_initialize_done by done.
  munfold. msimpl.
  mcases; intros [= <- <-]; msimpl;
    repeat (split; [first [reflexivity | assumption | discriminate | done]|]);
    first [ left; reflexivity
          | right; left; repeat (split; [reflexivity|]); eexists; reflexivity
          | right; right; eexists _, _, _, _; split; reflexivity ].
Qed.

(** X16. After a synthesis that missed both tiers and succeeded, the
    memory entry and the cache file of the key hold the bytes
    returned. *)
Theorem synthesized_audio_in_both_tiers (rt : Runtime) (text rate : pyval)
    (s s' : State) (audio : bytes) :
  _initialized (tts_engine s) = true →
  let key := Engine._get_cache_key rt (config s) text rate in
  let path := cache_file (config s) key in
  audio_cache (tts_engine s) !! key = None →
  files (world s) !! path = None →
  Engine.synthesize rt text rate s = (Ok audio, s') →
  audio_cache (tts_engine s') !! key = Some audio ∧
  files (world s') !! path = Some audio ∧
  ∃ c, calls (world s') = CallOpenWrite path audio :: c :: calls (world s).
Proof.
  intros Hi key path Hc Hf. subst path. unfold cache_file in *. revert Hc Hf.
  unfold Engine.synthesize. rewrite bind_run, lazy_initialize_done by done.
  munfold. fold key. intros Hc Hf. rewrite Hc, Hf.
  rewrite bool_decide_eq_false_2 by (intros [? ?]; discriminate).
  mcases; intros [= <- <-]; msimpl;
    (split; [apply lookup_insert_eq|]); (split; [apply lookup_insert_eq|]); eauto.
Qed.

(** X17. A text that cannot be sliced (a number, a boolean, null, an
    object) makes every synthesis raise a TypeError right after the
    lazy initialization, cached key or not. *)
Theorem unsliceable_text_is_rejected (rt : Runtime) (text rate : pyval)
    (s s1 : State) :
  Engine.lazy_initialize rt s = (Ok tt, s1) →
  sliceable text = false →
  ∃ msg, Engine.synthesize rt text rate s = (Raise (Exn TypeError msg), s1).
Proof.
  intros Hl Hs. rewrite (synthesize_after_init rt text rate s s1 Hl).
  pose proof (lazy_initialize_ok _ _ _ Hl) as Hi.
  unfold Engine.synthesize. rewrite bind_run, lazy_initialize_done by done.
  munfold. msimpl.
  destruct text; try discriminate; mcases; eexists; reflexivity.
Qed.

(** X18. What a synthesis wrote to the cache directory, a restarted
    process serves without the speech model: over the files the first
    process left, the same text and rate give the same bytes from the
    file tier, and no call is made after the initialization. *)
Theorem synthesized_audio_survives_restart (rt rt' : Runtime) (text rate : pyval)
    (s s' s1 : State) (audio : bytes) :
  (∀ v, py_format rt' v = py_format rt v) →
  model_name (config s) = model_name default_config →
  cache_dir (config s) = cache_dir default_config →
  _initialized (tts_engine s) = true →
  let key := Engine._get_cache_key rt (config s) text rate in
  audio_cache (tts_engine s) !! key = None →
  files (world s) !! cache_file (config s) key = None →
  Engine.synthesize rt text rate s = (Ok audio, s') →
  let restarted := boot (files (world s')) in
  Engine.lazy_initialize rt' restarted = (Ok tt, s1) →
  Engine.synthesize rt' text rate restarted
  = (Ok audio, snd (cache_store key audio s1)) ∧
  calls (world (snd (Engine.synthesize rt' text rate restarted))) = calls (world s1).
Proof.
  intros Hfmt Hn Hd Hi key Hc Hf Hsyn restarted Hl.
  assert (Hfile : files (world s') !! cache_file (config s) key = Some audio).
  { revert Hsyn. unfold cache_file in *. revert Hc Hf.
    unfold Engine.synthesize. rewrite bind_run, lazy_initialize_done by done.
    munfold. fold key. intros Hc Hf. rewrite Hc, Hf.
    rewrite bool_decide_eq_false_2 by (intros [? ?]; discriminate).
    mcases; intros [= <- <-]; msimpl; apply lookup_insert_eq. }
  assert (Hs : sliceable text = true).
  { pose proof (synthesize_initialized_effect rt text rate s Hi) as (_ & _ & _ & _ & _ & _ & Hr).
    rewrite Hsyn in Hr. by destruct (Hr audio eq_refl). }
  pose proof (lazy_initialize_ok _ _ _ Hl) as Hi1.
  assert (config s1 = default_config ∧ audio_cache (tts_engine s1) = ∅ ∧
          files (world s1) = files (world s')) as (Hc1 & Hk1 & Hf1).
  { rewrite lazy_initialize_eq in Hl by done.
    pose proof (initialize_effect rt' restarted) as (H1 & H2 & H3 & _).
    rewrite Hl in H1, H2, H3. done. }
  assert (Hkey : Engine._get_cache_key rt' (config s1) text rate = key).
  { subst key. unfold Engine._get_cache_key, Engine.cache_key_content, Engine.fstring.
    rewrite Hc1, Hn. destruct text, rate; by rewrite ?Hfmt. }
  rewrite (synthesize_after_init rt' text rate restarted s1 Hl).
  assert (Hhit : Engine.synthesize rt' text rate s1
                 = (Ok audio, snd (cache_store key audio s1))).
  { rewrite <- Hkey. apply synthesize_file_hit; [done | done | |].
    - rewrite Hkey, Hk1. apply lookup_empty.
    - rewrite Hkey, Hf1. unfold cache_file in *. by rewrite Hc1, <- Hd. }
  split; [exact Hhit|]. by rewrite Hhit.
Qed.


Lemma hex_digit_is_hex (d : Z) : is_hex_digit (MD5.hex_digit d) = true.
Proof.
  unfold MD5.hex_digit. generalize (Z.to_nat d). intros n.
  do 16 (destruct n as [|n]; [reflexivity|]). destruct n; reflexivity.
Qed.

Lemma hex_of_bytes_is_hex (bs : list Z) :
  all_chars is_hex_digit (MD5.hex_of_bytes bs) = true.
Proof.
  induction bs as [|b bs IH]; [reflexivity|].
  cbn [MD5.hex_of_bytes]. unfold MD5.hex_byte.
  cbv [String.append]. fold String.append. cbn [all_chars].
  by rewrite !hex_digit_is_hex, IH.
Qed.

(** X19. A cache key consists of hexadecimal digits: it contains no
    path separator and no dot. *)
Theorem cache_key_is_hexadecimal (rt : Runtime) (cfg : ServerConfig)
    (text rate : pyval) :
  let key := Engine._get_cache_key rt cfg text rate in
  all_chars is_hex_digit key = true ∧
  all_chars (λ c, negb (Ascii.eqb c "/")) key = true ∧
  all_chars (λ c, negb (Ascii.eqb c ".")) key = true.
Proof.
  intros key.
  assert (H : all_chars is_hex_digit key = true) by apply hex_of_bytes_is_hex.
  split; [exact H|].
  revert H. generalize key. clear.
  induction key as [|c k IH]; [done|]. cbn [all_chars].
  intros [Hc Hk]%andb_prop. destruct (IH Hk) as [H1 H2]. rewrite H1, H2.
  split; rewrite andb_true_r;
    (destruct (Ascii.eqb c _) eqn:He; [|done]);
    apply Ascii.eqb_eq in He; subst c; discriminate Hc.
Qed.

Lemma append_cancel_l (p x y : string) : p +:+ x = p +:+ y → x = y.
Proof.
  induction p as [|c p IH]; cbv [String.append]; fold String.append; [done|].
  intros [= H]. by apply IH.
Qed.

Lemma length_append (x y : string) :
  String.length (x +:+ y) = (String.length x + String.length y)%nat.
Proof.
  induction x as [|c x IH]; cbv [String.append]; fold String.append; [done|].
  cbn [String.length]. by rewrite IH.
Qed.

Lemma append_cancel_r (x y q : string) : x +:+ q = y +:+ q → x = y.
Proof.
  revert y. induction x as [|c x IH]; intros [|c' y] H.
  - done.
  - apply (f_equal String.length) in H. rewrite !length_append in H.
    cbn [String.length] in H. lia.
  - apply (f_equal String.length) in H. rewrite !length_append in H.
    cbn [String.length] in H. lia.
  - cbv [String.append] in H. fold String.append in H.
    injection H as -> H. by rewrite (IH y H).
Qed.

(** X20. With the other two fields fixed, the text that is hashed for
    the key determines the formatted rate, the formatted text and the
    model identifier. *)
Theorem cache_key_content_separates (rt : Runtime) (cfg : ServerConfig)
    (text text' rate rate' : pyval) :
  (Engine.cache_key_content rt cfg text rate = Engine.cache_key_content rt cfg text rate' →
   Engine.fstring rt rate = Engine.fstring rt rate') ∧
  (Engine.cache_key_content rt cfg text rate = Engine.cache_key_content rt cfg text' rate →
   Engine.fstring rt text = Engine.fstring rt text') ∧
  (∀ cfg',
     Engine.cache_key_content rt cfg text rate = Engine.cache_key_content rt cfg' text rate →
     model_name cfg = model_name cfg').
Proof.
  unfold Engine.cache_key_content. repeat split.
  - intros H. apply append_cancel_l, append_cancel_l in H.
    by apply append_cancel_r in H.
  - intros H. by apply append_cancel_r in H.
  - intros cfg' H. by do 4 apply append_cancel_l in H.
Qed.

Lemma config_eta (cfg : ServerConfig) :
  cfg =
  {| host := host cfg; port := port cfg; model_name := model_name cfg;
     cache_dir := cache_dir cfg; reference_audio := reference_audio cfg;
     reference_text := reference_text cfg; device := device cfg |}.
Proof. by destruct cfg. Qed.

(** X21. Over any run of the server the configuration changes in its
    reference transcript at most. *)
Theorem configuration_is_stable (rt : Runtime) (evs : list Event) (s : State) :
  config (run rt evs s) =
  {| host := host (config s); port := port (config s);
     model_name := model_name (config s); cache_dir := cache_dir (config s);
     reference_audio := reference_audio (config s);
     reference_text := reference_text (config (run rt evs s));
     device := device (config s) |}.
Proof.
  revert s. induction evs as [|ev evs IH]; intros s; cbn [run fold_left].
  - apply config_eta.
  - change (fold_left (step rt) evs (step rt s ev)) with (run rt evs (step rt s ev)).
    rewrite IH.
    assert (H : ∃ t, config (step rt s ev) =
      {| host := host (config s); port := port (config s);
         model_name := model_name (config s); cache_dir := cache_dir (config s);
         reference_audio := reference_audio (config s);
         reference_text := t; device := device (config s) |}).
    { destruct ev as [r|path]; cbn [step];
        [|exists (reference_text (config s)); msimpl; apply config_eta].
      unfold handle. destruct r; cbn [route];
        try (exists (reference_text (config s)); apply config_eta).
      - assert (Hc : config (snd (Route.synthesize rt get_json s)) = config s).
        { unfold Route.synthesize, try_except, logger, modify, lift, mbind, M_bind, mret,
            M_ret. msimpl.
          mcases; try reflexivity;
            try match goal with
            | H : Engine.synthesize ?rt ?t ?r ?s = (_, ?s') |- _ =>
              let Ha := fresh in
              pose proof (synthesize_effect rt t r s) as [Ha _];
              rewrite H in Ha
            end; msimpl; auto. }
        exists (reference_text (config s)).
        destruct (Route.synthesize rt get_json s) as [[]]; msimpl;
          rewrite Hc; apply config_eta.
      - assert (Hc : ∃ t, config (snd (Route.upload_reference rt audio text s)) =
          {| host := host (config s); port := port (config s);
             model_name := model_name (config s); cache_dir := cache_dir (config s);
             reference_audio := reference_audio (config s);
             reference_text := t; device := device (config s) |}).
        { unfold Route.upload_reference. munfold.
          mcases; eexists; first [reflexivity | apply config_eta]. }
        destruct Hc as [t Hc]. exists t.
        destruct (Route.upload_reference rt audio text s) as [[]]; exact Hc. }
    destruct H as [t ->]. reflexivity.
Qed.

Lemma synthesize_route_ok rt get_json s resp s' :
  Route.synthesize rt get_json s = (Ok resp, s') →
  status resp = 200 →
  ∃ d text rate audio,
    get_json = Ok (VDict d) ∧
    d !! "text" = Some text ∧
    clamp_rate (default (VFloat (FFinite 1)) (d !! "rate")) = Ok rate ∧
    Engine.synthesize rt text rate s = (Ok audio, s') ∧
    resp = {| status := 200;
              body := DataBody audio "audio/wav"
                        [("Content-Disposition", "inline; filename=speech.wav");
                         ("Cache-Control", "public, max-age=3600")] |}.
Proof.
  destruct get_json as [data|e]; [|intros [= <- <-]; discriminate].
  destruct (truthy data) eqn:Ht;
    [|rewrite synthesize_route_missing_text by auto; intros [= <- <-]; discriminate].
  destruct data as [|b|z|f|str|l|d];
    try (unfold Route.synthesize, try_except, lift, mbind, M_bind, Result_bind, mret,
           M_ret, Result_ret; rewrite Ht; cbn [negb py_contains py_getitem];
         repeat match goal with
                | |- context [negb ?b] => destruct b; cbn [negb]
                end;
         intros [= <- <-]; discriminate).
  destruct (d !! "text") as [text|] eqn:Hd;
    [|rewrite synthesize_route_missing_text by eauto; intros [= <- <-]; discriminate].
  destruct (clamp_rate (default (VFloat (FFinite 1)) (d !! "rate"))) as [rate|e] eqn:Hc.
  - rewrite (synthesize_route_run rt d text rate s Hd Hc).
    destruct (Engine.synthesize rt text rate s) as [[audio|e] s1] eqn:Hsyn;
      intros [= <- <-]; [|discriminate].
    intros _. eexists d, text, rate, audio. done.
  - unfold Route.synthesize, try_except, lift, mbind, M_bind, Result_bind, mret, M_ret,
      Result_ret, py_contains, py_getitem, py_get.
    rewrite Ht, Hd. rewrite bool_decide_eq_true_2 by eauto. cbn [negb].
    destruct (d !! "rate"); cbn [from_option id] in Hc |- *; rewrite Hc;
      intros [= <- <-]; discriminate.
Qed.

(** X22. As long as no two requests overlap, a /synthesize request that
    was answered 200 is answered with the same response for the rest of
    the process's life, whatever requests, uploads and removals of
    files came in between, and answering it changes nothing any
    more. *)
Theorem answered_request_repeats (rt : Runtime) (get_json : Result pyval)
    (s s' : State) (resp : Response) :
  handle rt (PostSynthesize get_json) s = (resp, s') →
  status resp = 200 →
  ∀ evs, let s'' := run rt evs s' in
         handle rt (PostSynthesize get_json) s'' = (resp, s'').
Proof.
  unfold handle. cbn [route].
  destruct (Route.synthesize rt get_json s) as [[resp0|e] s0] eqn:Hr;
    intros [= <- <-]; [|discriminate].
  intros H200 evs. set (s'' := run rt evs s0).
  destruct (synthesize_route_ok _ _ _ _ _ Hr H200)
    as (d & text & rate & audio & -> & Hd & Hc & Hsyn & ->).
  pose proof (synthesize_effect rt text rate s) as (Hcfg & _ & _ & _ & _ & _ & Hres).
  rewrite Hsyn in Hcfg, Hres. cbn [fst snd] in Hcfg, Hres.
  destruct (Hres audio eq_refl) as (Hi & Hs & Hk).
  pose proof (run_advances rt evs s0) as (Hn & _ & _ & Hkeep & Hinit & _).
  fold s'' in Hn, Hkeep, Hinit.
  rewrite (synthesize_route_run rt d text rate s'' Hd Hc).
  rewrite (synthesize_memory_hit rt text rate s'' audio); [done | by apply Hinit | done |].
  rewrite (cache_key_model_name rt (config s'') (config s)) by congruence.
  by apply Hkeep.
Qed.

(** X23. The bytes of a synthesis that missed both tiers are the WAV
    encoding, at the sample rate the model reported, of the 16-bit
    frames of the array the model produced: by the voice-clone call
    with the active profile when there is one, by the plain call
    otherwise, on the text and the rate of the request. *)
Theorem miss_encodes_model_output (rt : Runtime) (text rate : pyval) (s s' : State)
    (audio : bytes) :
  _initialized (tts_engine s) = true →
  let key := Engine._get_cache_key rt (config s) text rate in
  audio_cache (tts_engine s) !! key = None →
  files (world s) !! cache_file (config s) key = None →
  Engine.synthesize rt text rate s = (Ok audio, s') →
  ∃ m audio_array sample_rate frames,
    model (tts_engine s) = Some m ∧
    match voice_prompt (tts_engine s) with
    | Some vp => generate_voice_clone rt (clock s) m text vp rate
    | None => generate rt (clock s) m text rate
    end = Ok (audio_array, sample_rate) ∧
    numpy_int16_bytes rt audio_array = Ok frames ∧
    wave_write rt frames sample_rate = Ok audio.
Proof.
  intros Hi key Hc Hf. unfold cache_file in *. revert Hc Hf.
  unfold Engine.synthesize. rewrite bind_run, lazy_initialize_done by done.
  munfold. unfold clock. fold key. intros Hc Hf. rewrite Hc, Hf.
  rewrite bool_decide_eq_false_2 by (intros [? ?]; discriminate).
  mcases; intros [= <- <-]; msimpl;
    match goal with
    | p : (AudioArray * Z)%type |- _ => destruct p
    end; cbn [fst snd] in *; eauto 10.
Qed.

(** ** The further properties on the sample runtime *)

Lemma non_numeric_rate_witness :
  status (fst (handle good_runtime (PostSynthesize (Ok (synth_body "Hello world" VNone)))
                 (boot ∅))) = 500 ∧
  tts_engine (snd (handle good_runtime
                     (PostSynthesize (Ok (synth_body "Hello world" VNone))) (boot ∅)))
  = new_engine.
Proof.
  assert (Ht : (<["rate" := VNone]> {[ "text" := hello ]} : gmap string pyval) !! "text"
               = Some hello) by (vm_compute; reflexivity).
  assert (Hr : (<["rate" := VNone]> {[ "text" := hello ]} : gmap string pyval) !! "rate"
               = Some VNone) by (vm_compute; reflexivity).
  pose proof (non_numeric_rate_is_an_error good_runtime (boot ∅) _ hello VNone Ht Hr eq_refl)
    as H.
  unfold synth_body. fold hello. rewrite H. split; reflexivity.
Defined.

Lemma rate_defaults_to_one_witness :
  handle good_runtime (PostSynthesize (Ok (VDict {[ "text" := hello ]}))) (boot ∅)
  = handle good_runtime (PostSynthesize (Ok (synth_body "Hello world" rate_1))) (boot ∅).
Proof.
  assert (Ht : ({[ "text" := hello ]} : gmap string pyval) !! "text" = Some hello)
    by (vm_compute; reflexivity).
  assert (Hr : ({[ "text" := hello ]} : gmap string pyval) !! "rate" = None)
    by (vm_compute; reflexivity).
  destruct (rate_defaults_to_one good_runtime (boot ∅) _ hello Ht Hr) as [H _].
  exact H.
Defined.

Lemma only_objects_witness :
  let data := VList [VStr "text"] in
  let r := handle good_runtime (PostSynthesize (Ok data)) (boot ∅) in
  (status (fst r) = 400 ∧ snd r = boot ∅ ∧
   (truthy data = false ∨ py_contains "text" data = Ok false)) ∨
  (status (fst r) = 500 ∧
   ∃ msg, json_field (fst r) "error" = Some (VStr msg) ∧
          snd r = with_world (add_log (ERROR, LogSynthesisError (Exn TypeError msg)))
                    (boot ∅)).
Proof.
  apply (only_objects_reach_the_engine good_runtime (VList [VStr "text"]) (boot ∅)).
  intros d H. discriminate H.
Defined.

Lemma upload_reference_failures_witness :
  let r := handle read_only_runtime (PostReference (Some "RIFFvoice") None) (boot ∅) in
  status (fst r) = 500 ∧ config (snd r) = default_config ∧ tts_engine (snd r) = new_engine ∧
  logs (world (snd r))
  = [(ERROR, LogUnhandled "/reference" "POST" (Exn OSError "Permission denied"))].
Proof.
  intros r.
  destruct (upload_reference_failures read_only_runtime (boot ∅) None) as [_ H].
  assert (Hr : route read_only_runtime (PostReference (Some "RIFFvoice") None) (boot ∅)
               = (Raise (Exn OSError "Permission denied"),
                  snd (route read_only_runtime (PostReference (Some "RIFFvoice") None)
                         (boot ∅))))
    by (vm_compute; reflexivity).
  destruct (H _ _ _ Hr) as (Hh & Hc & He & Hl & _).
  split; [exact (f_equal status Hh)|]. split; [exact Hc|]. split; [exact He | exact Hl].
Defined.

Lemma upload_reference_activates_witness :
  let s := snd (Engine.lazy_initialize good_runtime (boot ∅)) in
  let r := handle good_runtime (PostReference (Some "RIFFvoice") (Some "A new transcript.")) s in
  json_field (fst r) "voice_clone_active" = Some (VBool true) ∧
  voice_prompt (tts_engine (snd r)) = Some (VoicePromptObj 7) ∧
  reference_text (config (snd r)) = "A new transcript.".
Proof.
  intros s r.
  assert (Hm : model (tts_engine s) = Some (ModelObj 3)) by (vm_compute; reflexivity).
  assert (H1 : mkdir good_runtime (clock s) (path_parent (reference_audio (config s)))
               = Ok tt) by (vm_compute; reflexivity).
  assert (H2 : file_save good_runtime (S (clock s)) (reference_audio (config s)) "RIFFvoice"
               = WriteOk) by (vm_compute; reflexivity).
  assert (H3 : create_voice_clone_prompt good_runtime (S (S (clock s))) (ModelObj 3)
                 (reference_audio (config s))
                 (default (reference_text (config s)) (Some "A new transcript."))
               = Ok (VoicePromptObj 7)) by (vm_compute; reflexivity).
  destruct (upload_reference_activates good_runtime s "RIFFvoice"
              (Some "A new transcript.") _ _ Hm H1 H2 H3) as (_ & Hj & Hv & _ & Ht & _).
  split; [exact Hj|]. split; [exact Hv | exact Ht].
Defined.

Lemma initialize_failure_report_witness :
  let s' := snd (Engine.initialize late_install_runtime (boot ∅)) in
  _initialized (tts_engine s') = false ∧
  head (logs (world s')) = Some (ERROR, LogPleaseInstall).
Proof.
  intros s'.
  assert (H : Engine.initialize late_install_runtime (boot ∅)
              = (Raise (Exn ModuleNotFoundError "No module named 'qwen_tts'"), s'))
    by (vm_compute; reflexivity).
  destruct (initialize_failure_report late_install_runtime (boot ∅) s' _ H)
    as (_ & Hi & _).
  split; [exact Hi | vm_compute; reflexivity].
Defined.

Lemma initialize_protocol_witness :
  let s' := snd (Engine.initialize good_runtime (boot ∅)) in
  calls (world s')
  = [CallMkdir "./cache"; CallFromPretrained "Qwen/Qwen3-TTS-12Hz-0.6B-Base" "cpu";
     CallCudaIsAvailable; CallImportTorch; CallImportQwenTTS] ∧
  _initialized (tts_engine s') = true.
Proof.
  intros s'.
  assert (H : Engine.initialize good_runtime (boot ∅) = (Ok tt, s'))
    by (vm_compute; reflexivity).
  destruct (initialize_protocol good_runtime (boot ∅) s' eq_refl H)
    as (m & dev & probe & loader & _ & Hi & _).
  split; [vm_compute; reflexivity | exact Hi].
Defined.

Lemma initialized_engine_has_model_witness :
  let s := run good_runtime [Serve (PostSynthesize (Ok (synth_body "Hello world" rate_1)))]
             (boot ∅) in
  ∃ m, model (tts_engine s) = Some m.
Proof.
  intros s.
  assert (Hi : _initialized (tts_engine s) = true) by (vm_compute; reflexivity).
  destruct (initialized_engine_has_model good_runtime ∅
              [Serve (PostSynthesize (Ok (synth_body "Hello world" rate_1)))] Hi)
    as (m & Hm & _).
  exists m. exact Hm.
Defined.

Lemma first_initialization_profile_witness :
  let s1 := snd (Engine.initialize good_runtime
                   (boot {[ "./reference/gm-voice.wav" := "RIFFvoice" ]})) in
  ∃ m, model (tts_engine s1) = Some m ∧
       json_field (fst (handle good_runtime GetHealth s1)) "initialized"
       = Some (VBool true).
Proof.
  intros s1.
  assert (H : Engine.initialize good_runtime
                (boot {[ "./reference/gm-voice.wav" := "RIFFvoice" ]}) = (Ok tt, s1))
    by (vm_compute; reflexivity).
  destruct (first_initialization_profile good_runtime _ s1 H) as (m & Hm & _ & Hh & _).
  exists m. split; [exact Hm | exact Hh].
Defined.

Lemma memory_cache_never_evicts_witness :
  let s := snd (Engine.synthesize good_runtime hello rate_1 (boot ∅)) in
  audio_cache (tts_engine
    (run good_runtime
       [RemoveFile hello_path;
        Serve (PostReference (Some "RIFFvoice") None);
        Serve (PostSynthesize (Ok (synth_body "Another line" rate_1)))] s))
  !! hello_key = Some "RIFF5".
Proof.
  intros s.
  assert (H : audio_cache (tts_engine s) !! hello_key = Some "RIFF5")
    by (vm_compute; reflexivity).
  exact (memory_cache_never_evicts good_runtime _ s hello_key "RIFF5" H).
Defined.

Lemma requests_keep_files_witness :
  let s := snd (Engine.synthesize good_runtime hello rate_1 (boot ∅)) in
  files (world
    (run good_runtime
       (Serve <$> [PostReference (Some "RIFFvoice") None;
                   PostSynthesize (Ok (synth_body "Hello world" rate_1));
                   PostSynthesize (Ok (synth_body "Another line" rate_1))]) s))
  !! hello_path = Some "RIFF5".
Proof.
  intros s.
  assert (Hne : hello_path ≠ reference_audio (config s))
    by (vm_compute; intros H; discriminate H).
  assert (H : files (world s) !! hello_path = Some "RIFF5") by (vm_compute; reflexivity).
  exact (requests_keep_files good_runtime _ s hello_path "RIFF5" Hne H).
Defined.

Lemma failed_synthesis_effects_witness :
  let s := snd (Engine.lazy_initialize full_disk_runtime (boot ∅)) in
  let s' := snd (Engine.synthesize full_disk_runtime hello rate_1 s) in
  model (tts_engine s') = model (tts_engine s) ∧ _initialized (tts_engine s') = true ∧
  head (logs (world s'))
  = Some (ERROR, LogSynthesisFailed (Exn OSError "No space left on device")).
Proof.
  intros s s'.
  assert (Hi : _initialized (tts_engine s) = true) by (vm_compute; reflexivity).
  assert (H : Engine.synthesize full_disk_runtime hello rate_1 s
              = (Raise (Exn OSError "No space left on device"), s'))
    by (vm_compute; reflexivity).
  destruct (failed_synthesis_effects full_disk_runtime hello rate_1 s s' _ Hi H)
    as (_ & Hm & _ & Hi' & _ & Hcases).
  split; [exact Hm|]. split; [exact Hi'|].
  destruct Hcases as [Hsame|[(_ & _ & earlier & Hl)|(? & ? & ? & earlier & _ & Hl)]].
  - apply (f_equal (λ x, length (calls (world x)))) in Hsame.
    vm_compute in Hsame. discriminate Hsame.
  - by rewrite Hl.
  - by rewrite Hl.
Defined.

Lemma synthesized_audio_in_both_tiers_witness :
  let s := snd (Engine.lazy_initialize good_runtime (boot ∅)) in
  let s' := snd (Engine.synthesize good_runtime hello rate_1 s) in
  audio_cache (tts_engine s') !! hello_key = Some "RIFF5" ∧
  files (world s') !! hello_path = Some "RIFF5".
Proof.
  intros s s'.
  assert (Hi : _initialized (tts_engine s) = true) by (vm_compute; reflexivity).
  assert (Hk : Engine._get_cache_key good_runtime (config s) hello rate_1 = hello_key)
    by (vm_compute; reflexivity).
  assert (Hc : audio_cache (tts_engine s)
                 !! Engine._get_cache_key good_runtime (config s) hello rate_1 = None)
    by (vm_compute; reflexivity).
  assert (Hf : files (world s)
                 !! cache_file (config s)
                      (Engine._get_cache_key good_runtime (config s) hello rate_1) = None)
    by (vm_compute; reflexivity).
  assert (H : Engine.synthesize good_runtime hello rate_1 s = (Ok "RIFF5", s'))
    by (vm_compute; reflexivity).
  destruct (synthesized_audio_in_both_tiers good_runtime hello rate_1 s s' "RIFF5"
              Hi Hc Hf H) as (Hm & Hfile & _).
  rewrite Hk in Hm.
  split; [exact Hm|]. vm_compute. vm_compute in Hfile. exact Hfile.
Defined.

Lemma unsliceable_text_witness :
  let s1 := snd (Engine.lazy_initialize good_runtime (boot ∅)) in
  ∃ msg, Engine.synthesize good_runtime (VInt 5) rate_1 (boot ∅)
         = (Raise (Exn TypeError msg), s1).
Proof.
  intros s1.
  assert (H : Engine.lazy_initialize good_runtime (boot ∅) = (Ok tt, s1))
    by (vm_compute; reflexivity).
  exact (unsliceable_text_is_rejected good_runtime (VInt 5) rate_1 (boot ∅) s1 H eq_refl).
Defined.

Lemma restart_witness :
  let s := snd (Engine.lazy_initialize good_runtime (boot ∅)) in
  let s' := snd (Engine.synthesize good_runtime hello rate_1 s) in
  fst (Engine.synthesize good_runtime hello rate_1 (boot (files (world s')))) = Ok "RIFF5".
Proof.
  intros s s'.
  assert (Hi : _initialized (tts_engine s) = true) by (vm_compute; reflexivity).
  assert (Hc : audio_cache (tts_engine s)
                 !! Engine._get_cache_key good_runtime (config s) hello rate_1 = None)
    by (vm_compute; reflexivity).
  assert (Hf : files (world s)
                 !! cache_file (config s)
                      (Engine._get_cache_key good_runtime (config s) hello rate_1) = None)
    by (vm_compute; reflexivity).
  assert (H : Engine.synthesize good_runtime hello rate_1 s = (Ok "RIFF5", s'))
    by (vm_compute; reflexivity).
  assert (Hl : Engine.lazy_initialize good_runtime (boot (files (world s')))
               = (Ok tt, snd (Engine.lazy_initialize good_runtime (boot (files (world s'))))))
    by (vm_compute; reflexivity).
  destruct (synthesized_audio_survives_restart good_runtime good_runtime hello rate_1
              s s' _ "RIFF5" (λ v, eq_refl) eq_refl eq_refl Hi Hc Hf H Hl) as [Hr _].
  rewrite Hr. reflexivity.
Defined.

Lemma cache_key_content_separates_witness :
  Engine.cache_key_content good_runtime default_config hello rate_1
  ≠ Engine.cache_key_content good_runtime default_config hello (VFloat (FFinite 2)).
Proof.
  intros H.
  destruct (cache_key_content_separates good_runtime default_config hello hello
              rate_1 (VFloat (FFinite 2))) as [Hs _].
  specialize (Hs H). vm_compute in Hs. discriminate Hs.
Defined.

Lemma answered_request_repeats_witness :
  let req := PostSynthesize (Ok (synth_body "Hello world" rate_1)) in
  let r := handle good_runtime req (boot ∅) in
  let s'' := run good_runtime
               [RemoveFile hello_path; Serve (PostReference (Some "RIFFvoice") None)]
               (snd r) in
  status (fst r) = 200 ∧ handle good_runtime req s'' = (fst r, s'').
Proof.
  intros req r s''.
  assert (H : handle good_runtime req (boot ∅) = (fst r, snd r))
    by (vm_compute; reflexivity).
  assert (H2 : status (fst r) = 200) by (vm_compute; reflexivity).
  split; [exact H2|].
  exact (answered_request_repeats good_runtime _ _ _ _ H H2
           [RemoveFile hello_path; Serve (PostReference (Some "RIFFvoice") None)]).
Defined.

Lemma miss_encodes_model_output_witness :
  let s := snd (Engine.lazy_initialize good_runtime (boot ∅)) in
  ∃ m audio_array sample_rate frames,
    model (tts_engine s) = Some m ∧
    generate good_runtime (clock s) m hello rate_1 = Ok (audio_array, sample_rate) ∧
    numpy_int16_bytes good_runtime audio_array = Ok frames ∧
    wave_write good_runtime frames sample_rate = Ok "RIFF5".
Proof.
  intros s.
  assert (Hi : _initialized (tts_engine s) = true) by (vm_compute; reflexivity).
  assert (Hc : audio_cache (tts_engine s)
                 !! Engine._get_cache_key good_runtime (config s) hello rate_1 = None)
    by (vm_compute; reflexivity).
  assert (Hf : files (world s)
                 !! cache_file (config s)
                      (Engine._get_cache_key good_runtime (config s) hello rate_1) = None)
    by (vm_compute; reflexivity).
  assert (H : Engine.synthesize good_runtime hello rate_1 s
              = (Ok "RIFF5", snd (Engine.synthesize good_runtime hello rate_1 s)))
    by (vm_compute; reflexivity).
  exact (miss_encodes_model_output good_runtime hello rate_1 s _ "RIFF5" Hi Hc Hf H).
Defined.
